(** * pywam_gui_tool: the settings store, the application mediator and the
      add-argument dialog, as a shallow embedding of [settings.py], [app.py]
      and the non-layout parts of [gui.py].

    Python objects are modelled by value, exceptions by an error result,
    attribute mutation by explicit state passing.  The one object that the
    program shares by reference, the module-level [DEFAULT_SETTINGS] dict, is
    kept in a store of its own. *)

From Stdlib Require Import ZArith Ascii String List Bool Lia.
From stdpp Require Import gmap strings list fin_maps.

#[local] Set Warnings "-register-all".
#[local] Open Scope string_scope.
#[local] Open Scope Z_scope.

(** ** Python values and exceptions *)

Module Py.

(** The values that can occur in the settings document, in the fields of an
    API call and in an argument triple.  Dict keys are strings (JSON objects,
    keyword mappings).  [PyMethod] is a bound method object such as
    [host._asdict]. *)
Inductive pyvalue : Type :=
| PyNone
| PyBool (b : bool)
| PyInt (n : Z)
| PyStr (s : string)
| PyList (l : list pyvalue)
| PyTuple (l : list pyvalue)
| PyDict (d : gmap string pyvalue)
| PyMethod (name : string) (self : pyvalue).

(** Instances of [Exception].  [LibError] stands for any other exception
    class (errors of the device library, [TclError], [OSError], ...).
    Signals that derive from [BaseException] only are not modelled. *)
Inductive exn : Type :=
| AttributeError (msg : string)
| TypeError (msg : string)
| ValueError (msg : string)
| LibError (cls msg : string).

(** [str(err)] *)
Definition exn_str (e : exn) : string :=
  match e with
  | AttributeError m | TypeError m | ValueError m | LibError _ m => m
  end.

Inductive result (A : Type) : Type :=
| Ok (a : A)
| Raise (e : exn).
Arguments Ok {A} a.
Arguments Raise {A} e.

Definition is_ok {A} (r : result A) : bool :=
  match r with Ok _ => true | Raise _ => false end.

(** Pure code that may raise. *)
Definition rbind {A B} (r : result A) (k : A -> result B) : result B :=
  match r with Ok a => k a | Raise e => Raise e end.

(** Code that mutates a state [S] and may raise; the state reached at the
    point of the raise is kept. *)
Definition M (S A : Type) : Type := S -> S * result A.

Definition ret {S A} (a : A) : M S A := fun s => (s, Ok a).
Definition raise {S A} (e : exn) : M S A := fun s => (s, Raise e).
Definition bind {S A B} (m : M S A) (k : A -> M S B) : M S B :=
  fun s => match m s with
           | (s', Ok a) => k a s'
           | (s', Raise e) => (s', Raise e)
           end.
Definition get {S} : M S S := fun s => (s, Ok s).
Definition put {S} (s : S) : M S unit := fun _ => (s, Ok tt).
Definition lift {S A} (r : result A) : M S A := fun s => (s, r).

(** [try: m  except Exception as e: h e] *)
Definition try_except {S A} (m : M S A) (h : exn -> M S A) : M S A :=
  fun s => match m s with
           | (s', Ok a) => (s', Ok a)
           | (s', Raise e) => h e s'
           end.

(** [with contextlib.suppress(Exception): m] *)
Definition suppress {S} (m : M S unit) : M S unit :=
  try_except m (fun _ => ret tt).

(** [if not c: raise e] *)
Definition require {S} (c : bool) (e : exn) : M S unit :=
  if c then ret tt else raise e.

(** [isinstance(v, int)]: [bool] is a subclass of [int]. *)
Definition isinstance_int (v : pyvalue) : bool :=
  match v with PyInt _ | PyBool _ => true | _ => false end.
Definition isinstance_str (v : pyvalue) : bool :=
  match v with PyStr _ => true | _ => false end.
Definition isinstance_list (v : pyvalue) : bool :=
  match v with PyList _ => true | _ => false end.
Definition isinstance_bool (v : pyvalue) : bool :=
  match v with PyBool _ => true | _ => false end.
Definition isinstance_tuple (v : pyvalue) : bool :=
  match v with PyTuple _ => true | _ => false end.

(** The number an [int] instance denotes ([True] is 1, [False] is 0). *)
Definition int_value (v : pyvalue) : option Z :=
  match v with
  | PyInt n => Some n
  | PyBool b => Some (if b then 1 else 0)
  | _ => None
  end.

(** [v == s] for a string literal [s]. *)
Definition eq_str (v : pyvalue) (s : string) : bool :=
  match v with PyStr t => bool_decide (t = s) | _ => false end.

(** [bool(v)] *)
Definition truthy (v : pyvalue) : bool :=
  match v with
  | PyNone => false
  | PyBool b => b
  | PyInt n => negb (n =? 0)
  | PyStr s => negb (bool_decide (s = ""))
  | PyList l | PyTuple l => negb (bool_decide (l = []))
  | PyDict d => negb (bool_decide (d = ∅))
  | PyMethod _ _ => true
  end.

(** What [json.dump] can encode: everything but a method object. *)
Fixpoint json_serializable (v : pyvalue) : bool :=
  match v with
  | PyNone | PyBool _ | PyInt _ | PyStr _ => true
  | PyList l | PyTuple l => forallb json_serializable l
  | PyDict d => map_fold (fun _ x acc => json_serializable x && acc) true d
  | PyMethod _ _ => false
  end.

(** What [json.load] gives back for the text [json.dump] wrote: tuples come
    back as lists. *)
Fixpoint json_image (v : pyvalue) : pyvalue :=
  match v with
  | PyList l | PyTuple l => PyList (map json_image l)
  | PyDict d => PyDict (json_image <$> d)
  | _ => v
  end.

(** [iter(v)]: the elements a [for] loop visits. *)
Definition py_iter (v : pyvalue) : result (list pyvalue) :=
  match v with
  | PyList l | PyTuple l => Ok l
  | PyStr s => Ok (map (fun c => PyStr (String c "")) (list_ascii_of_string s))
  | PyDict d => Ok (map (fun kv => PyStr kv.1) (map_to_list d))
  | _ => Raise (TypeError "object is not iterable")
  end.

End Py.
Export Py.

Declare Scope py_scope.
Delimit Scope py_scope with py.
Notation "x <- m ;; k" := (bind m (fun x => k))
  (at level 100, m at next level, right associativity) : py_scope.
Notation "m ;;; k" := (bind m (fun _ => k))
  (at level 100, right associativity) : py_scope.
Declare Scope res_scope.
Delimit Scope res_scope with res.
Notation "x <- r ;; k" := (rbind r (fun x => k))
  (at level 100, r at next level, right associativity) : res_scope.

(** [[f(x) for x in l]], stopping at the first element on which [f] raises. *)
Fixpoint mapM {A B} (f : A -> result B) (l : list A) : result (list B) :=
  match l with
  | [] => Ok []
  | x :: l' => (y <- f x ;; ys <- mapM f l' ;; Ok (y :: ys))%res
  end.

(** ** settings.py *)

Module SettingsPy.

(** The settings file as [open] and the [json] module see it.  The text
    itself is not modelled: a file either is absent, or cannot be read as
    JSON ([err] is the [str()] of the exception that [open] or [json.load]
    raises), or holds the part of a document that [json.dump] wrote before it
    raised, or holds the JSON text of a document. *)
Inductive file : Type :=
| FileAbsent
| FileInvalid (err : string)
| FileTruncated (doc : pyvalue)
| FileJson (doc : pyvalue).

(** [class Host(NamedTuple)]; the field annotations are not enforced at run
    time, so the fields hold any value. *)
Record Host : Type := mkHost { name : pyvalue; host : pyvalue; port : pyvalue }.

(** The literal bound to [DEFAULT_SETTINGS] when the module is imported. *)
Definition DEFAULT_HOST : gmap string pyvalue :=
  <["name" := PyStr "Speaker"]>
    (<["host" := PyStr "192.168.1.100"]> (<["port" := PyInt 55001]> ∅)).
Definition DEFAULT_SETTINGS_literal : pyvalue :=
  PyDict (<["hosts" := PyList [PyDict DEFAULT_HOST]]>
            (<["loglevel" := PyInt 1]> (<["default_host" := PyInt 0]> ∅))).

(** What is shared by every [Settings] object of the process: the dict
    object that [DEFAULT_SETTINGS] names (with its current contents), and the
    file at [SETTINGS_FILE]. *)
Record world : Type := mkWorld { DEFAULT_SETTINGS : pyvalue; SETTINGS_FILE : file }.

(** What [self._settings] refers to: the shared default dict, or a dict of
    the object's own. *)
Inductive ref : Type :=
| RefDefault
| RefOwn (doc : pyvalue).

Record Settings : Type := mkSettings { _settings : ref }.

Definition St : Type := world * Settings.

(** The document [self._settings] currently denotes. *)
Definition document (st : St) : pyvalue :=
  match _settings st.2 with
  | RefDefault => DEFAULT_SETTINGS st.1
  | RefOwn doc => doc
  end.

(** [Settings.__init__] *)
Definition init : Settings := mkSettings (RefOwn (PyDict ∅)).

(** [v.get(key, default)] *)
Definition dict_get (key : string) (default : pyvalue) (v : pyvalue) : result pyvalue :=
  match v with
  | PyDict d => Ok (match d !! key with Some x => x | None => default end)
  | _ => Raise (AttributeError "object has no attribute 'get'")
  end.

(** [self._settings[key] = val]: mutates the dict in place, so that an
    assignment through a reference to the shared default changes it for
    everyone. *)
Definition setitem (key : string) (val : pyvalue) : M St unit :=
  fun st =>
    match document st with
    | PyDict d =>
        let doc := PyDict (<[key := val]> d) in
        match _settings st.2 with
        | RefDefault => ((mkWorld doc (SETTINGS_FILE st.1), st.2), Ok tt)
        | RefOwn _ => ((st.1, mkSettings (RefOwn doc)), Ok tt)
        end
    | _ => (st, Raise (TypeError "object does not support item assignment"))
    end.

(** The document that a failed load leaves: [{"ERROR": str(err)}]. *)
Definition error_document (err : string) : pyvalue :=
  PyDict {["ERROR" := PyStr err]}.

(** The message of the exception with which loading the file fails, if it
    does.  [decode_error doc] is the decoder's message for the text that a
    failed dump of [doc] left behind. *)
Definition load_error (decode_error : pyvalue -> string) (f : file) : option string :=
  match f with
  | FileInvalid err => Some err
  | FileTruncated doc => Some (decode_error doc)
  | FileAbsent | FileJson _ => None
  end.

(** [Settings.load_settings] *)
Definition load_settings (decode_error : pyvalue -> string) : M St unit :=
  fun st =>
    match SETTINGS_FILE st.1 with
    | FileJson doc => ((st.1, mkSettings (RefOwn (json_image doc))), Ok tt)
    | FileAbsent => ((st.1, mkSettings RefDefault), Ok tt)
    | FileInvalid err => ((st.1, mkSettings (RefOwn (error_document err))), Ok tt)
    | FileTruncated doc =>
        ((st.1, mkSettings (RefOwn (error_document (decode_error doc)))), Ok tt)
    end.

(** [Settings.save_settings]: [open(..., "w")] creates or empties the file,
    then [json.dump] writes the document, or raises [TypeError] part-way on
    a value it cannot encode.  The path is taken to be writable. *)
Definition save_settings : M St unit :=
  fun st =>
    let doc := document st in
    if json_serializable doc
    then ((mkWorld (DEFAULT_SETTINGS st.1) (FileJson doc), st.2), Ok tt)
    else ((mkWorld (DEFAULT_SETTINGS st.1) (FileTruncated doc), st.2),
          Raise (TypeError "Object of type method is not JSON serializable")).

(** [Settings.error] ([None] is Python's [None]) *)
Definition error (st : St) : result pyvalue :=
  dict_get "ERROR" PyNone (document st).

(** [Host] called with the keyword mapping [v] (a double-star call) *)
Definition Host_of_kwargs (v : pyvalue) : result Host :=
  match v with
  | PyDict d =>
      if negb (forallb (fun kv => bool_decide (kv.1 ∈ ["name"; "host"; "port"]))
                       (map_to_list d))
      then Raise (TypeError "got an unexpected keyword argument")
      else match d !! "name", d !! "host", d !! "port" with
           | Some n, Some h, Some p => Ok (mkHost n h p)
           | _, _, _ => Raise (TypeError "missing required positional arguments")
           end
  | _ => Raise (TypeError "argument after double star must be a mapping")
  end.

(** [Settings.hosts] *)
Definition hosts (st : St) : result (list Host) :=
  (x <- dict_get "hosts" (PyList []) (document st) ;;
   l <- py_iter x ;;
   mapM Host_of_kwargs l)%res.

(** [host._asdict], without a call: the bound method object.  A [Host] is a
    tuple of its three fields. *)
Definition Host_tuple (h : Host) : pyvalue := PyTuple [name h; host h; port h].
Definition asdict_method (h : Host) : pyvalue := PyMethod "_asdict" (Host_tuple h).

(** [Settings.hosts] (setter) *)
Definition hosts_setter (hs : list Host) : M St unit :=
  (setitem "hosts" (PyList (map asdict_method hs)) ;;;
   save_settings)%py.

(** [Settings.default_host] *)
Definition default_host (st : St) : result pyvalue :=
  dict_get "default_host" (PyInt 0) (document st).

(** [Settings.default_host] (setter) *)
Definition default_host_setter (v : pyvalue) : M St unit :=
  match int_value v with
  | None => raise (TypeError "Default host must be an integer")
  | Some n =>
      (out <- (if n <? 0 then ret true
               else fun st => (st, (hs <- hosts st ;; Ok (Z.of_nat (length hs) <=? n))%res)) ;;
       require (negb out) (ValueError "Default host must be one of the hosts") ;;;
       setitem "default_host" v ;;;
       save_settings)%py
  end.

(** [Settings.loglevel] *)
Definition loglevel (st : St) : result pyvalue :=
  dict_get "loglevel" (PyInt 1) (document st).

(** [Settings.loglevel] (setter) *)
Definition loglevel_setter (v : pyvalue) : M St unit :=
  match int_value v with
  | None => raise (TypeError "loglevel must be an integer")
  | Some n =>
      (require ((-1 <? n) && (n <? 5)) (ValueError "loglevel must be between 0 and 4") ;;;
       setitem "loglevel" v ;;;
       save_settings)%py
  end.

(** The operations a program can apply to a [Settings] object. *)
Inductive op : Type :=
| OpLoad
| OpSave
| OpSetHosts (hs : list Host)
| OpSetDefaultHost (v : pyvalue)
| OpSetLoglevel (v : pyvalue).

Definition run_op (decode_error : pyvalue -> string) (o : op) : M St unit :=
  match o with
  | OpLoad => load_settings decode_error
  | OpSave => save_settings
  | OpSetHosts hs => hosts_setter hs
  | OpSetDefaultHost v => default_host_setter v
  | OpSetLoglevel v => loglevel_setter v
  end.

(** The worlds a process can be in: it starts with the default dict as
    written in the source and any settings file, and from then on only the
    operations above (on whichever [Settings] object) touch either. *)
Inductive reachable (decode_error : pyvalue -> string) : world -> Prop :=
| reachable_start f : reachable decode_error (mkWorld DEFAULT_SETTINGS_literal f)
| reachable_step w s o :
    reachable decode_error w ->
    reachable decode_error (run_op decode_error o (w, s)).1.1.

End SettingsPy.

(** ** app.py *)

(** [pywam.lib.api_call.ApiCall]: a plain record; nothing constrains what a
    caller puts into its fields. *)
Module ApiCall.
Record t : Type := mk {
  api_type : pyvalue;
  method : pyvalue;
  pwron : pyvalue;
  args : pyvalue;
  expected_response : pyvalue;
  user_check : pyvalue;
  timeout_multiple : pyvalue }.

Definition with_timeout (c : t) (v : pyvalue) : t :=
  mk (api_type c) (method c) (pwron c) (args c) (expected_response c) (user_check c) v.
End ApiCall.

(** [pywam.lib.api_response.ApiResponse]: opaque to the mediator. *)
Module ApiResponse.
Record t : Type := mk {
  raw_response : string;
  api_type : string;
  method : string;
  user : string;
  version : string;
  speaker_ip : string;
  success : pyvalue;
  data : pyvalue;
  err_msg : string;
  err_repr : string }.
End ApiResponse.

Module AppPy.

(** The session handle [Speaker(ip, port)] of the device library. *)
Record Speaker : Type := mkSpeaker { ip : string; port : Z }.

(** How a call into the device library ends: it returns, or raises. *)
Definition outcome : Type := option exn.

(** What the device library does with the calls of one connect or disconnect
    sequence. *)
Record DeviceLib : Type := mkDeviceLib {
  on_Speaker : outcome;                 (* Speaker(ip, port) *)
  on_register_state : outcome;          (* speaker.events.register_subscriber *)
  on_register_event : outcome;          (* speaker.client.register_subscriber *)
  on_connect : outcome;                 (* await speaker.connect() *)
  on_update : outcome;                  (* await speaker.update() *)
  on_disconnect : outcome }.            (* await speaker.client.disconnect() *)

(** The calls that leave the mediator, in the order they are made. *)
Inductive call : Type :=
| CallSpeaker (ip : string) (port : Z)
| CallRegisterState (priority : Z)
| CallRegisterEvent
| CallConnect (sp : Speaker)
| CallUpdate (sp : Speaker)
| CallClientDisconnect (sp : Speaker)
| CallNewEvent (event : ApiResponse.t) (trunc : bool)
| CallNewState (state : pyvalue).

(** What a task on the asyncio loop will run. *)
Inductive task : Type :=
| TaskConnect (lib : DeviceLib) (ip : string) (port : Z)
| TaskDisconnect (lib : DeviceLib).

(** The part of [gui.Header] that decides which mediator calls the user can
    trigger: the texts of the two entries, and the states of the entries and
    of the buttons ([true] is NORMAL, [false] is DISABLED). *)
Record Header : Type := mkHeader {
  ent_ip : string;
  ent_port : string;
  ent_state : bool;
  btn_connect : bool;
  btn_disconnect : bool;
  btn_send_api : bool }.

(** [gui.Window]: the header, and the rows of the event list box, one per
    event shown. *)
Record Window : Type := mkWindow {
  header : Header;
  lst_events : list ApiResponse.t }.

(** The attributes of an [App] object.  [settings] is assigned by
    [__init__]; the other four are only annotated in the class body, so each
    is [None] here until some method assigns it.  For [speaker], [Some None]
    is the Python value [None]. *)
Record App : Type := mkApp {
  settings : SettingsPy.Settings;
  gui : option Window;
  aio_loop : option (list task);
  speaker : option (option Speaker);
  events : option (list ApiResponse.t) }.

(** The mediator together with the record of the calls it has made. *)
Record Sys : Type := mkSys { app : App; calls : list call }.

Definition set_gui (g : Window) : M Sys unit :=
  fun s => let a := app s in
    (mkSys (mkApp (settings a) (Some g) (aio_loop a) (speaker a) (events a)) (calls s), Ok tt).
Definition set_aio_loop (q : list task) : M Sys unit :=
  fun s => let a := app s in
    (mkSys (mkApp (settings a) (gui a) (Some q) (speaker a) (events a)) (calls s), Ok tt).
Definition set_speaker (sp : option Speaker) : M Sys unit :=
  fun s => let a := app s in
    (mkSys (mkApp (settings a) (gui a) (aio_loop a) (Some sp) (events a)) (calls s), Ok tt).
Definition set_events (l : list ApiResponse.t) : M Sys unit :=
  fun s => let a := app s in
    (mkSys (mkApp (settings a) (gui a) (aio_loop a) (speaker a) (Some l)) (calls s), Ok tt).

(** Reading an attribute that was never assigned raises [AttributeError]. *)
Definition no_attribute (a : string) : exn :=
  AttributeError ("'App' object has no attribute '" ++ a ++ "'").
Definition getattr {A} (field : App -> option A) (a : string) : M Sys A :=
  fun s => match field (app s) with
           | Some v => (s, Ok v)
           | None => (s, Raise (no_attribute a))
           end.

(** A call that leaves the mediator: it is recorded, then ends as the
    outside decides. *)
Definition extern (c : call) (o : outcome) : M Sys unit :=
  fun s => (mkSys (app s) (calls s ++ [c]),
            match o with None => Ok tt | Some e => Raise e end).

(** [App.__init__]: a [Settings] object, loaded at once. *)
Definition init (decode_error : pyvalue -> string) (w : SettingsPy.world) : App :=
  mkApp (SettingsPy.load_settings decode_error (w, SettingsPy.init)).1.2
        None None None None.

(** [self.speaker.client.disconnect()]: [None] has no [client]. *)
Definition client_disconnect (lib : DeviceLib) : M Sys unit :=
  (h <- getattr speaker "speaker" ;;
   match h with
   | Some sp => extern (CallClientDisconnect sp) (on_disconnect lib)
   | None => raise (AttributeError "'NoneType' object has no attribute 'client'")
   end)%py.

(** [if self.speaker:]: a [Speaker] object is true, [None] is false. *)
Definition speaker_truthy : M Sys bool :=
  (h <- getattr speaker "speaker" ;;
   ret (match h with Some _ => true | None => false end))%py.

(** [App.async_connect] *)
Definition async_connect (lib : DeviceLib) (ip : string) (port : Z) : M Sys unit :=
  try_except
    (extern (CallSpeaker ip port) (on_Speaker lib) ;;;
     set_speaker (Some (mkSpeaker ip port)) ;;;
     extern (CallRegisterState 1) (on_register_state lib) ;;;
     extern CallRegisterEvent (on_register_event lib) ;;;
     extern (CallConnect (mkSpeaker ip port)) (on_connect lib) ;;;
     extern (CallUpdate (mkSpeaker ip port)) (on_update lib))%py
    (fun e =>
       (b <- speaker_truthy ;;
        (if b : bool
         then (suppress (client_disconnect lib) ;;; set_speaker None)
         else ret tt) ;;;
        raise e)%py).

(** [App.async_disconnect] *)
Definition async_disconnect (lib : DeviceLib) : M Sys unit :=
  (suppress (client_disconnect lib) ;;;
   set_speaker None)%py.

(** [App.connect] and [App.disconnect]: [self.aio_loop.create_task(...)] *)
Definition create_task (t : task) : M Sys unit :=
  (q <- getattr aio_loop "aio_loop" ;;
   set_aio_loop (q ++ [t])%list)%py.
Definition connect (lib : DeviceLib) (ip : string) (port : Z) : M Sys unit :=
  create_task (TaskConnect lib ip port).
Definition disconnect (lib : DeviceLib) : M Sys unit :=
  create_task (TaskDisconnect lib).

(** [gui.Events.new_event]: a row is added at the end, and the first row is
    deleted when [trunc] is set. *)
Definition new_event (event : ApiResponse.t) (trunc : bool) : M Sys unit :=
  (g <- getattr gui "gui" ;;
   extern (CallNewEvent event trunc) None ;;;
   let rows := (lst_events g ++ [event])%list in
   set_gui (mkWindow (header g) (if trunc then tail rows else rows)))%py.

(** [App.event_receiver] *)
Definition event_receiver (event : ApiResponse.t) : M Sys unit :=
  (l <- getattr events "events" ;;
   let l1 := (l ++ [event])%list in
   set_events l1 ;;;
   let trunc := (1000 <? length l1)%nat in
   (if trunc then set_events (tail l1) else ret tt) ;;;
   new_event event trunc)%py.

(** [App.state_receiver] *)
Definition state_receiver (state : pyvalue) : M Sys unit :=
  (_ <- getattr gui "gui" ;;
   extern (CallNewState state) None)%py.

(** Delivering a sequence of events, one call of the receiver each; the
    first call that raises ends the delivery. *)
Fixpoint deliver (evs : list ApiResponse.t) : M Sys unit :=
  match evs with
  | [] => ret tt
  | e :: evs' => (event_receiver e ;;; deliver evs')%py
  end.

(** [if c: raise e], in straight-line validation code. *)
Definition reject (c : bool) (e : exn) : result unit :=
  if c then Raise e else Ok tt.

(** [App.validate_api_call] *)
Definition validate_api_call (api_call : ApiCall.t) : result unit :=
  (_ <- reject (negb (eq_str (ApiCall.api_type api_call) "UIC"
                      || eq_str (ApiCall.api_type api_call) "CPM"))
               (ValueError "API type not supported.") ;;
   _ <- reject (negb (truthy (ApiCall.method api_call)))
               (ValueError "No method specified.") ;;
   _ <- reject (negb (isinstance_list (ApiCall.args api_call)))
               (TypeError "args is not a list.") ;;
   _ <- reject (negb (isinstance_bool (ApiCall.pwron api_call)))
               (TypeError "pwron is not a boolean.") ;;
   _ <- reject (negb (isinstance_bool (ApiCall.user_check api_call)))
               (TypeError "user_check is not a boolean.") ;;
   match int_value (ApiCall.timeout_multiple api_call) with
   | None => Raise (TypeError "timeout_multiple is not an integer.")
   | Some n => reject (5 <? n) (ValueError "timeout_multiple is too high.")
   end)%res.

(** [App.validate_api_call_arguments] *)
Definition validate_api_call_arguments (args : pyvalue) : result unit :=
  match args with
  | PyTuple [a0; a1; a2] =>
      (_ <- reject (negb (isinstance_str a0)) (TypeError "Argument name is not a string.") ;;
       _ <- reject (negb (truthy a0)) (ValueError "Argument name cannot be empty.") ;;
       _ <- reject (negb (isinstance_str a2)) (TypeError "Argument type is not a string.") ;;
       _ <- reject (negb (eq_str a2 "str" || eq_str a2 "dec"
                          || eq_str a2 "cdata" || eq_str a2 "dec_arr"))
                   (ValueError "Argument type not supported.") ;;
       _ <- reject (negb (isinstance_str a1 || isinstance_int a1 || isinstance_list a1))
                   (TypeError "Argument value is not a string, int, or list.") ;;
       _ <- (if eq_str a2 "dec_arr"
             then match a1 with
                  | PyList l => reject (negb (forallb isinstance_int l))
                                  (TypeError "Argument value is not a list of integers.")
                  | _ => Raise (TypeError "Argument value is not a list.")
                  end
             else Ok tt) ;;
       _ <- (if eq_str a2 "dec"
             then reject (negb (isinstance_int a1))
                    (TypeError "Argument value is not an integer.")
             else Ok tt) ;;
       _ <- (if eq_str a2 "str"
             then reject (negb (isinstance_str a1))
                    (TypeError "Argument value is not a string.")
             else Ok tt) ;;
       (if eq_str a2 "cdata"
        then reject (negb (isinstance_str a1))
               (TypeError "Argument value is not a string.")
        else Ok tt))%res
  | PyTuple _ => Raise (ValueError "args is not a list of tuples of length 3.")
  | _ => Raise (TypeError "args is not a list of tuples.")
  end.

End AppPy.

(** ** gui.py *)

(** [gui.ArgumentsDialog]: the three input widgets, the [result] attribute,
    whether the dialog has been closed, and the error boxes it has shown. *)
Module ArgumentsDialog.
Record t : Type := mk {
  ent_name : string;
  ent_value : string;
  cbx_type : string;
  result : pyvalue;
  closed : bool;
  errors : list string }.

(** [ArgumentsDialog.__init__]: empty entries, no type selected. *)
Definition init : t :=
  mk "" "" "" (PyTuple [PyStr ""; PyStr ""; PyStr ""]) false [].
End ArgumentsDialog.

Module GuiPy.
Import AppPy.

Section Builtins.

(** The string built-ins the GUI code calls: [int(s)] ([None] when it raises
    [ValueError]), [s.strip()] and [s.split(",")]. *)
Variable py_int : string -> option Z.
Variable py_strip : string -> string.
Variable py_split : string -> list string.

Definition int_ (s : string) : result Z :=
  match py_int s with
  | Some n => Ok n
  | None => Raise (ValueError "invalid literal for int() with base 10")
  end.

(** The first [try] block of [ArgumentsDialog.add_argument]: the value as
    the selected type wants it, or the empty string when that raises. *)
Definition entered_value (d : ArgumentsDialog.t) : pyvalue :=
  let value_type := ArgumentsDialog.cbx_type d in
  let parsed : result pyvalue :=
    if bool_decide (value_type = "dec_arr")
    then (l <- mapM int_ (py_split (ArgumentsDialog.ent_value d)) ;;
          Ok (PyList (map PyInt l)))%res
    else if bool_decide (value_type = "dec")
    then (n <- int_ (py_strip (ArgumentsDialog.ent_value d)) ;; Ok (PyInt n))%res
    else Ok (PyStr (py_strip (ArgumentsDialog.ent_value d))) in
  match parsed with
  | Ok value => value
  | Raise _ => PyStr ""
  end.

(** The triple that [ArgumentsDialog.add_argument] hands to the validation. *)
Definition entered_args (d : ArgumentsDialog.t) : pyvalue :=
  PyTuple [PyStr (py_strip (ArgumentsDialog.ent_name d));
           entered_value d;
           PyStr (ArgumentsDialog.cbx_type d)].

(** [ArgumentsDialog.add_argument] *)
Definition add_argument (d : ArgumentsDialog.t) : ArgumentsDialog.t :=
  let args := entered_args d in
  match validate_api_call_arguments args with
  | Raise err =>
      ArgumentsDialog.mk (ArgumentsDialog.ent_name d) (ArgumentsDialog.ent_value d)
        (ArgumentsDialog.cbx_type d) (ArgumentsDialog.result d)
        (ArgumentsDialog.closed d) (ArgumentsDialog.errors d ++ [exn_str err])%list
  | Ok _ =>
      ArgumentsDialog.mk (ArgumentsDialog.ent_name d) (ArgumentsDialog.ent_value d)
        (ArgumentsDialog.cbx_type d) args true (ArgumentsDialog.errors d)
  end.

(** [ArgumentsDialog.close] *)
Definition close (d : ArgumentsDialog.t) : ArgumentsDialog.t :=
  ArgumentsDialog.mk (ArgumentsDialog.ent_name d) (ArgumentsDialog.ent_value d)
    (ArgumentsDialog.cbx_type d) (ArgumentsDialog.result d) true (ArgumentsDialog.errors d).

(** The entries of the read-only type selector. *)
Inductive arg_type : Type := T_str | T_dec | T_cdata | T_dec_arr.
Definition arg_type_name (ty : arg_type) : string :=
  match ty with
  | T_str => "str" | T_dec => "dec" | T_cdata => "cdata" | T_dec_arr => "dec_arr"
  end.

(** What the user can do in the dialog. *)
Inductive dialog_event : Type :=
| TypeName (s : string)
| TypeValue (s : string)
| SelectType (ty : arg_type)
| ClickAdd
| ClickCancel.

Definition dialog_step (d : ArgumentsDialog.t) (ev : dialog_event) : ArgumentsDialog.t :=
  if ArgumentsDialog.closed d then d
  else match ev with
       | TypeName s =>
           ArgumentsDialog.mk s (ArgumentsDialog.ent_value d) (ArgumentsDialog.cbx_type d)
             (ArgumentsDialog.result d) false (ArgumentsDialog.errors d)
       | TypeValue s =>
           ArgumentsDialog.mk (ArgumentsDialog.ent_name d) s (ArgumentsDialog.cbx_type d)
             (ArgumentsDialog.result d) false (ArgumentsDialog.errors d)
       | SelectType ty =>
           ArgumentsDialog.mk (ArgumentsDialog.ent_name d) (ArgumentsDialog.ent_value d)
             (arg_type_name ty) (ArgumentsDialog.result d) false (ArgumentsDialog.errors d)
       | ClickAdd => add_argument d
       | ClickCancel => close d
       end.

(** [ArgumentsDialog(parent, app)] up to the return of [wait_window]: the
    user's actions in order; the dialog is closed at the latest when they
    end. *)
Definition run_dialog (session : list dialog_event) : ArgumentsDialog.t :=
  close (fold_left dialog_step session ArgumentsDialog.init).

(** [SendApiWindows.add_argument]: the dialog's [result] is appended to
    [self.arguments] when it is true. *)
Definition SendApiWindows_add_argument
  (session : list dialog_event) (arguments : list pyvalue) : list pyvalue :=
  let args := ArgumentsDialog.result (run_dialog session) in
  if truthy args then (arguments ++ [args])%list else arguments.

(** [Header.disconnect] *)
Definition Header_disconnect (lib : DeviceLib) : M Sys unit :=
  (disconnect lib ;;;
   g <- getattr gui "gui" ;;
   let h := header g in
   set_gui (mkWindow (mkHeader (ent_ip h) (ent_port h) true true false false)
                     (lst_events g)))%py.

(** [Header.connect] *)
Definition Header_connect (lib : DeviceLib) : M Sys unit :=
  (g <- getattr gui "gui" ;;
   let h := header g in
   set_gui (mkWindow (mkHeader (ent_ip h) (ent_port h) false false true true)
                     (lst_events g)) ;;;
   try_except
     (p <- lift (int_ (ent_port h)) ;; connect lib (ent_ip h) p)
     (fun _ => Header_disconnect lib))%py.

(** What the user can do in the header of the main window; a click on a
    connect or disconnect button fixes how the device library will answer
    the task it starts. *)
Inductive user_event : Type :=
| TypeIp (s : string)
| TypePort (s : string)
| ClickConnect (lib : DeviceLib)
| ClickDisconnect (lib : DeviceLib).

(** Tk runs the command of a widget only while the widget is enabled. *)
Definition dispatch (ev : user_event) : M Sys unit :=
  (g <- getattr gui "gui" ;;
   let h := header g in
   match ev with
   | TypeIp s =>
       if ent_state h
       then set_gui (mkWindow (mkHeader s (ent_port h) true (btn_connect h)
                                 (btn_disconnect h) (btn_send_api h)) (lst_events g))
       else ret tt
   | TypePort s =>
       if ent_state h
       then set_gui (mkWindow (mkHeader (ent_ip h) s true (btn_connect h)
                                 (btn_disconnect h) (btn_send_api h)) (lst_events g))
       else ret tt
   | ClickConnect lib => if btn_connect h then Header_connect lib else ret tt
   | ClickDisconnect lib => if btn_disconnect h then Header_disconnect lib else ret tt
   end)%py.

(** One task of the loop, run from its start to its end: the points at
    which a task waits for the device are not told apart, so a task is not
    interleaved with the user's next actions. *)
Definition run_task (t : task) : M Sys unit :=
  match t with
  | TaskConnect lib ip port => async_connect lib ip port
  | TaskDisconnect lib => async_disconnect lib
  end.

(** [await asyncio.sleep(0)]: the loop runs the tasks that are waiting; an
    exception that ends a task stays in the task. *)
Fixpoint run_tasks (q : list task) : M Sys unit :=
  match q with
  | [] => ret tt
  | t :: q' => (suppress (run_task t) ;;; run_tasks q')%py
  end.
Definition sleep0 : M Sys unit :=
  (q <- getattr aio_loop "aio_loop" ;;
   set_aio_loop [] ;;;
   run_tasks q)%py.

(** [Window.show]: each turn of the loop lets Tk handle what the user did
    (an exception in a widget command is reported by Tk and goes no
    further), then lets the asyncio loop run; the loop ends when the user
    closes the window, after the last action of [session]. *)
Fixpoint show (session : list user_event) : M Sys unit :=
  match session with
  | [] => ret tt
  | ev :: session' => (suppress (dispatch ev) ;;; sleep0 ;;; show session')%py
  end.

(** [if self.app.settings.error:] at the end of [Window.__init__]; [w] is
    what the settings share with the rest of the process at that moment. *)
Definition settings_error (w : SettingsPy.world) : M Sys bool :=
  fun s => (s, (e <- SettingsPy.error (w, settings (app s)) ;; Ok (truthy e))%res).

(** [self.gui = Window(self)] as far as the header goes: Tk and the settings
    decide whether building the panels raises and what the entries show; the
    buttons are as [Header.set_up_widgets] leaves them.  With an error in the
    settings the constructor then reports it and closes the window
    ([self._show = False; self.destroy()]); the result tells whether the
    window is still there. *)
Definition Window_init (w : SettingsPy.world) (built : result (string * string))
  : M Sys bool :=
  match built with
  | Raise e => raise e
  | Ok (ip0, port0) =>
      (failed <- settings_error w ;;
       set_gui (mkWindow (mkHeader ip0 port0 true true false false) []) ;;;
       ret (negb failed))%py
  end.

(** [App.run].  [Window.show] starts with [self.update()], which Tk refuses
    with a [TclError] on a window that has been destroyed. *)
Definition run (w : SettingsPy.world) (built : result (string * string))
  (session : list user_event) (lib : DeviceLib) : M Sys unit :=
  (set_aio_loop [] ;;;
   shown <- Window_init w built ;;
   (if shown : bool
    then show session
    else raise (LibError "TclError" "application has been destroyed")) ;;;
   b <- speaker_truthy ;;
   if b : bool then async_disconnect lib else ret tt)%py.

End Builtins.

(** A reading of the three built-ins on ASCII text, for running the
    definitions above: decimal digits with an optional sign, blanks stripped,
    fields cut at commas. *)
Fixpoint digits (s : string) (acc : Z) : option Z :=
  match s with
  | EmptyString => Some acc
  | String c s' =>
      let n := Z.of_nat (Ascii.nat_of_ascii c) in
      if (48 <=? n) && (n <=? 57) then digits s' (10 * acc + (n - 48)) else None
  end.
Definition is_blank (c : Ascii.ascii) : bool :=
  let n := Ascii.nat_of_ascii c in
  bool_decide (n = 32 \/ (9 <= n /\ n <= 13))%nat.
Fixpoint lstrip (s : string) : string :=
  match s with
  | String c s' => if is_blank c then lstrip s' else s
  | EmptyString => EmptyString
  end.
Definition rev_string (s : string) : string :=
  string_of_list_ascii (rev (list_ascii_of_string s)).
Definition ascii_strip (s : string) : string :=
  rev_string (lstrip (rev_string (lstrip s))).
Definition ascii_int (s : string) : option Z :=
  match ascii_strip s with
  | EmptyString => None
  | String "-"%char (String c r) => option_map Z.opp (digits (String c r) 0)
  | String "+"%char (String c r) => digits (String c r) 0
  | t => digits t 0
  end.
Fixpoint split_comma (s : string) (field : string) : list string :=
  match s with
  | EmptyString => [rev_string field]
  | String c s' =>
      if bool_decide (c = ","%char) then rev_string field :: split_comma s' EmptyString
      else split_comma s' (String c field)
  end.
Definition ascii_split (s : string) : list string := split_comma s EmptyString.

End GuiPy.

(** ** The vocabulary of the properties *)

Module Spec.
Import SettingsPy AppPy GuiPy.

(** The host of the built-in default document. *)
Definition default_host_preset : Host :=
  mkHost (PyStr "Speaker") (PyStr "192.168.1.100") (PyInt 55001).

(** A mediator whose history and whose window have been assigned: the
    history holds [l], and the list box shows the same rows. *)
Definition listening (a : App) (h : Header) (l : list ApiResponse.t) : App :=
  mkApp (settings a) (Some (mkWindow h l)) (aio_loop a) (speaker a) (Some l).

(** The last 1000 entries of a list. *)
Definition newest (l : list ApiResponse.t) : list ApiResponse.t :=
  drop (length l - 1000) l.

(** The calls the GUI is to receive for a delivery [evs] that starts when
    the history holds [n] entries: event number [i] (from 0) comes with the
    flag set exactly when it is appended as entry number 1001 or later. *)
Definition flagged (n : nat) (evs : list ApiResponse.t) : list call :=
  imap (fun i e => CallNewEvent e (1000 <? n + i + 1)%nat) evs.

(** The mediator with its session handle set to [None], all else as it was. *)
Definition cleared (a : App) : App :=
  mkApp (settings a) (gui a) (aio_loop a) (Some None) (events a).

(** The exception of the first step of the connect sequence that fails. *)
Definition first_failure (lib : DeviceLib) : outcome :=
  match on_Speaker lib, on_register_state lib, on_register_event lib,
        on_connect lib, on_update lib with
  | Some e, _, _, _, _
  | None, Some e, _, _, _
  | None, None, Some e, _, _
  | None, None, None, Some e, _
  | None, None, None, None, Some e => Some e
  | None, None, None, None, None => None
  end.

(** A device library all of whose calls return. *)
Definition quiet : DeviceLib := mkDeviceLib None None None None None None.

Definition is_connect (ev : user_event) : bool :=
  match ev with ClickConnect _ => true | _ => false end.

(** The main window before the first connect: nothing is queued, the
    disconnect button is disabled and [speaker] is still unassigned. *)
Definition idle (a : App) (ip0 port0 : string) (rows : list ApiResponse.t) : App :=
  mkApp (settings a) (Some (mkWindow (mkHeader ip0 port0 true true false false) rows))
        (Some []) None (events a).

(** An integer at run time: an instance of [int], which the booleans are. *)
Inductive is_integer : pyvalue -> Prop :=
| int_is_integer n : is_integer (PyInt n)
| bool_is_integer b : is_integer (PyBool b).

Inductive is_string : pyvalue -> Prop :=
| str_is_string s : is_string (PyStr s).

(** The run-time shape that a declared argument type asks of the value. *)
Inductive shape_matches : string -> pyvalue -> Prop :=
| shape_dec v : is_integer v -> shape_matches "dec" v
| shape_str v : is_string v -> shape_matches "str" v
| shape_cdata v : is_string v -> shape_matches "cdata" v
| shape_dec_arr l : Forall is_integer l -> shape_matches "dec_arr" (PyList l).

(** An argument triple as [validate_argument] is specified to accept it. *)
Inductive valid_argument : pyvalue -> Prop :=
| valid_triple name value ty :
    name <> "" ->
    ty ∈ ["str"; "dec"; "cdata"; "dec_arr"] ->
    shape_matches ty value ->
    valid_argument (PyTuple [PyStr name; value; PyStr ty]).

(** The fields of an API call other than [timeout_multiple], as
    [validate_call] is specified to accept them. *)
Record other_fields_valid (c : ApiCall.t) : Prop := {
  api_type_ok : ApiCall.api_type c = PyStr "UIC" \/ ApiCall.api_type c = PyStr "CPM";
  method_ok : truthy (ApiCall.method c) = true;
  args_ok : exists l, ApiCall.args c = PyList l;
  pwron_ok : exists b, ApiCall.pwron c = PyBool b;
  user_check_ok : exists b, ApiCall.user_check c = PyBool b }.

(** The selected type is numeric and the entered text does not parse: as
    one integer for [dec], or in one of its comma-separated fields for
    [dec_arr]. *)
Definition unparsable (py_int : string -> option Z) (py_strip : string -> string)
  (py_split : string -> list string) (d : ArgumentsDialog.t) : Prop :=
  (ArgumentsDialog.cbx_type d = "dec"
   /\ py_int (py_strip (ArgumentsDialog.ent_value d)) = None)
  \/ (ArgumentsDialog.cbx_type d = "dec_arr"
      /\ exists s, s ∈ py_split (ArgumentsDialog.ent_value d) /\ py_int s = None).

(** A triple whose declared type is numeric and whose value is the empty
    string. *)
Definition coerced_empty (t : pyvalue) : Prop :=
  exists name ty, t = PyTuple [name; PyStr ""; PyStr ty] /\ (ty = "dec" \/ ty = "dec_arr").

(** What the dialog's [result] can hold: the initial triple or a validated
    one. *)
Definition result_ok (d : ArgumentsDialog.t) : Prop :=
  ArgumentsDialog.result d = ArgumentsDialog.result ArgumentsDialog.init
  \/ validate_api_call_arguments (ArgumentsDialog.result d) = Ok tt.

End Spec.

(** ** app.py, continued: sending requests and rendering events *)

Module AppRequests.
Import AppPy.

(** [l[i]] on a Python list: a negative index counts from the end, an index
    outside the list raises [IndexError]. *)
Definition list_getitem {A} (l : list A) (i : Z) : result A :=
  let n := Z.of_nat (length l) in
  let j := if i <? 0 then i + n else i in
  match (if 0 <=? j then l !! Z.to_nat j else None) with
  | Some x => Ok x
  | None => Raise (LibError "IndexError" "list index out of range")
  end.

(** The mediator together with what the asyncio loop holds of send tasks
    (each with the answer the device library will give to its request), and
    with the requests that reached the device library, in order. *)
Record Sent : Type := mkSent {
  sys : Sys;
  waiting : list (outcome * ApiCall.t);
  requests : list (Speaker * ApiCall.t) }.

Definition on_sys {A} (m : M Sys A) : M Sent A :=
  fun s => ((mkSent (m (sys s)).1 (waiting s) (requests s)), (m (sys s)).2).

(** [App.async_send_api] *)
Definition async_send_api (o : outcome) (api_call : ApiCall.t) : M Sent unit :=
  (h <- on_sys (getattr speaker "speaker") ;;
   match h with
   | Some sp =>
       fun s => (mkSent (sys s) (waiting s) (requests s ++ [(sp, api_call)])%list,
                 match o with None => Ok tt | Some e => Raise e end)
   | None => raise (AttributeError "'NoneType' object has no attribute 'client'")
   end)%py.

(** [App.send_api]: the call is built from the arguments as they are and a
    task is created for it. *)
Definition send_api (o : outcome)
  (api_type method pwron args expected_response user_check timeout : pyvalue)
  : M Sent unit :=
  let api_call :=
    ApiCall.mk api_type method pwron args expected_response user_check timeout in
  (_ <- on_sys (getattr aio_loop "aio_loop") ;;
   fun s => (mkSent (sys s) (waiting s ++ [(o, api_call)])%list (requests s), Ok tt))%py.

(** One turn of the loop over the send tasks: each runs to its end, and an
    exception that ends a task stays in the task. *)
Fixpoint run_sends (q : list (outcome * ApiCall.t)) : M Sent unit :=
  match q with
  | [] => ret tt
  | (o, c) :: q' => (suppress (async_send_api o c) ;;; run_sends q')%py
  end.
Definition send_turn : M Sent unit :=
  fun s => run_sends (waiting s) (mkSent (sys s) [] (requests s)).

Section Formatting.

(** The formatting done by libraries: [pprint.pformat], [str], and the
    chain [ET.XML], [ET.indent], [ET.tostring], which raises on text that is
    not well-formed XML. *)
Variable pformat : pyvalue -> string.
Variable py_str : pyvalue -> string.
Variable xml_pretty : string -> result string.

(** The dict that both renderers build, given its [raw_response] and [data]
    entries. *)
Definition event_as_dict (event : ApiResponse.t) (raw data : string) : gmap string string :=
  <["raw_response" := raw]>
  (<["api_type" := ApiResponse.api_type event]>
  (<["method" := ApiResponse.method event]>
  (<["user" := ApiResponse.user event]>
  (<["version" := ApiResponse.version event]>
  (<["speaker_ip" := ApiResponse.speaker_ip event]>
  (<["success" := py_str (ApiResponse.success event)]>
  (<["data" := data]>
  (<["err_msg" := ApiResponse.err_msg event]>
  (<["err_repr" := ApiResponse.err_repr event]> ∅))))))))).

(** [App.get_pretty_event] *)
Definition get_pretty_event (event_idx : Z) : M Sys string :=
  (l <- getattr events "events" ;;
   event <- lift (list_getitem l event_idx) ;;
   ret (pformat (PyDict (PyStr <$> event_as_dict event (ApiResponse.raw_response event)
                                     (py_str (ApiResponse.data event))))))%py.

(** [App.get_pretty_event_attribute] *)
Definition get_pretty_event_attribute (event_idx : Z) (attribute : string) : M Sys string :=
  (l <- getattr events "events" ;;
   event <- lift (list_getitem l event_idx) ;;
   formatted_raw_response <- lift (xml_pretty (ApiResponse.raw_response event)) ;;
   let formatted_data := pformat (ApiResponse.data event) in
   ret (match event_as_dict event formatted_raw_response formatted_data !! attribute with
        | Some s => s
        | None => ""
        end))%py.

End Formatting.

End AppRequests.

(** ** gui.py, continued: the properties panel and the send window *)

Module GuiPanels.
Import AppPy GuiPy.

(** A row of the properties tree: the [values] of an item. *)
Record Row : Type := mkRow {
  last_updated : string;
  attribute : string;
  var_type : string;
  value : string }.

(** [str(type(v))[8:][:-2]]: the class name cut out of ["<class '...'>"]. *)
Definition type_name (v : pyvalue) : string :=
  match v with
  | PyNone => "NoneType"
  | PyBool _ => "bool"
  | PyInt _ => "int"
  | PyStr _ => "str"
  | PyList _ => "list"
  | PyTuple _ => "tuple"
  | PyDict _ => "dict"
  | PyMethod _ _ => "method"
  end.

(** [sep.join(l)] *)
Fixpoint join (sep : string) (l : list string) : string :=
  match l with
  | [] => ""
  | [s] => s
  | s :: l' => s ++ sep ++ join sep l'
  end.

Section Str.
Variable py_str : pyvalue -> string.

(** The row that [new_state] writes for one item of the state. *)
Definition state_row (time_now key : string) (v : pyvalue) : Row :=
  mkRow time_now key
    (match v with PyNone => "" | _ => type_name v end)
    (match v with
     | PyList l | PyTuple l => join ", " (map py_str l)
     | _ => py_str v
     end).

(** [self.trv_state.item(key, values=...)]: Tk raises on an item that the
    tree does not have. *)
Definition trv_item (key : string) (r : Row) : M (gmap string Row) unit :=
  fun rows =>
    match rows !! key with
    | Some _ => (<[key := r]> rows, Ok tt)
    | None => (rows, Raise (LibError "TclError" ("Item " ++ key ++ " not found")))
    end.

(** [Properties.new_state], on the items of the state dict in their order. *)
Fixpoint new_state (time_now : string) (state : list (string * pyvalue))
  : M (gmap string Row) unit :=
  match state with
  | [] => ret tt
  | (key, v) :: state' =>
      (trv_item key (state_row time_now key v) ;;; new_state time_now state')%py
  end.

End Str.

(** [gui.SendApiWindows]: what its widgets hold. *)
Module SendApiWindows.
Record t : Type := mk {
  cbx_type : string;
  ent_method : string;
  cbx_pwron_state : Z;
  arguments : list pyvalue;
  ent_expected_resp : string;
  cbx_user_check_state : Z;
  scl_timeout : string }.
End SendApiWindows.

(** [SendApiWindows.send_api] up to its call of [App.send_api]: the call
    that the mediator will build from the arguments it is given, or the
    exception of [int] on the text of the timeout box. *)
Definition form_call (py_int : string -> option Z) (py_strip : string -> string)
  (w : SendApiWindows.t) : result ApiCall.t :=
  (timeout_multiple <- int_ py_int (SendApiWindows.scl_timeout w) ;;
   Ok (ApiCall.mk
         (PyStr (SendApiWindows.cbx_type w))
         (PyStr (py_strip (SendApiWindows.ent_method w)))
         (PyBool (negb (SendApiWindows.cbx_pwron_state w =? 0)))
         (PyList (SendApiWindows.arguments w))
         (PyStr (py_strip (SendApiWindows.ent_expected_resp w)))
         (PyBool (negb (SendApiWindows.cbx_user_check_state w =? 0)))
         (PyInt timeout_multiple)))%res.

End GuiPanels.

(** ** More vocabulary *)

Module Vocabulary.
Import SettingsPy AppPy GuiPy Spec.

(** The dict form of a host preset, as the settings file holds it. *)
Definition host_dict (h : Host) : pyvalue :=
  PyDict (<["name" := SettingsPy.name h]>
            (<["host" := SettingsPy.host h]> (<["port" := SettingsPy.port h]> ∅))).

(** How many entries a delivery of [k] events evicts from a history of
    [n]: one per event from the moment the history is full. *)
Definition evicted (n k : nat) : nat := k `min` (n + k - 1000).

(** A mediator with a history [l] and a window whose list box shows
    [rows]. *)
Definition showing (a : App) (h : Header) (rows l : list ApiResponse.t) : App :=
  mkApp (settings a) (Some (mkWindow h rows)) (aio_loop a) (speaker a) (Some l).

(** The calls of a connect sequence up to and including the first one that
    raises. *)
Definition connect_calls (lib : DeviceLib) (ip : string) (port : Z) : list call :=
  let sp := mkSpeaker ip port in
  CallSpeaker ip port ::
  match on_Speaker lib with Some _ => [] | None =>
  CallRegisterState 1 ::
  match on_register_state lib with Some _ => [] | None =>
  CallRegisterEvent ::
  match on_register_event lib with Some _ => [] | None =>
  CallConnect sp ::
  match on_connect lib with Some _ => [] | None =>
  [CallUpdate sp] end end end end.

(** The teardown call of a connect sequence: none when every step returns;
    otherwise one, on the handle that [self.speaker] holds at that point, if
    it holds one. *)
Definition teardown_calls (lib : DeviceLib) (ip : string) (port : Z) (a : App) : list call :=
  match first_failure lib with
  | None => []
  | Some _ =>
      match on_Speaker lib, speaker a with
      | None, _ => [CallClientDisconnect (mkSpeaker ip port)]
      | Some _, Some (Some old) => [CallClientDisconnect old]
      | Some _, _ => []
      end
  end.

(** What [self.speaker] holds after a connect sequence. *)
Definition handle_after (lib : DeviceLib) (ip : string) (port : Z) (a : App)
  : option (option Speaker) :=
  match first_failure lib with
  | None => Some (Some (mkSpeaker ip port))
  | Some _ =>
      match on_Speaker lib, speaker a with
      | Some _, None => None
      | _, _ => Some None
      end
  end.

(** A computation that leaves the [events] attribute as it finds it,
    assigned or not, however it ends. *)
Definition keeps_events {A} (m : M Sys A) : Prop :=
  forall s, events (app (m s).1) = events (app s).

(** A settings error that the window constructor would report. *)
Definition reports_error (w : SettingsPy.world) (a : App) : Prop :=
  exists v, SettingsPy.error (w, settings a) = Ok v /\ truthy v = true.

(** Settings that the window constructor accepts. *)
Definition loaded_clean (w : SettingsPy.world) (a : App) : Prop :=
  exists v, SettingsPy.error (w, settings a) = Ok v /\ truthy v = false.

(** The header is in one of its two modes: idle (Connect and the entries
    enabled) or connected (Disconnect and Send API enabled). *)
Definition two_modes (h : Header) : Prop :=
  btn_disconnect h = negb (btn_connect h)
  /\ ent_state h = btn_connect h
  /\ btn_send_api h = btn_disconnect h.

(** No live session handle. *)
Definition no_handle (a : App) : Prop :=
  speaker a = None \/ speaker a = Some None.

(** What the invariant of the header says of a state. *)
Definition header_invariant (s : Sys) : Prop :=
  exists h rows,
    gui (app s) = Some (mkWindow h rows)
    /\ aio_loop (app s) = Some []
    /\ two_modes h
    /\ (btn_connect h = true -> no_handle (app s)).

(** The dialog accepts what was entered. *)
Definition entry_accepted (py_int : string -> option Z) (py_strip : string -> string)
  (py_split : string -> list string) (d : ArgumentsDialog.t) : Prop :=
  py_strip (ArgumentsDialog.ent_name d) <> ""
  /\ (ArgumentsDialog.cbx_type d = "str"
      \/ ArgumentsDialog.cbx_type d = "cdata"
      \/ (ArgumentsDialog.cbx_type d = "dec"
          /\ is_Some (py_int (py_strip (ArgumentsDialog.ent_value d))))
      \/ (ArgumentsDialog.cbx_type d = "dec_arr"
          /\ Forall (fun s => is_Some (py_int s))
                    (py_split (ArgumentsDialog.ent_value d)))).

Definition is_add (ev : dialog_event) : bool :=
  match ev with ClickAdd => true | _ => false end.

End Vocabulary.

(** * Properties *)

(** ** The settings store *)

Module SettingsFacts.
Import SettingsPy Spec.

Lemma serializable_dict (d : gmap string pyvalue) :
  json_serializable (PyDict d) = true
  <-> map_Forall (fun _ v => json_serializable v = true) d.
Proof.
  cbn [json_serializable].
  apply (map_fold_weak_ind
           (fun r (m : gmap string pyvalue) =>
              r = true <-> map_Forall (fun _ v => json_serializable v = true) m)).
  - split; [intros _; apply map_Forall_empty|reflexivity].
  - intros k v m r Hk IH. rewrite andb_true_iff, IH, map_Forall_insert by exact Hk.
    reflexivity.
Qed.

Lemma serializable_insert (d : gmap string pyvalue) k v :
  json_serializable (PyDict d) = true -> json_serializable v = true ->
  json_serializable (PyDict (<[k := v]> d)) = true.
Proof.
  rewrite !serializable_dict. intros Hd Hv. apply map_Forall_insert_2; assumption.
Qed.

Lemma not_serializable_insert (d : gmap string pyvalue) k v :
  json_serializable v = false -> json_serializable (PyDict (<[k := v]> d)) = false.
Proof.
  intros Hv. apply not_true_is_false. rewrite serializable_dict. intros H.
  specialize (H k v (lookup_insert_eq _ _ _)). cbn in H. congruence.
Qed.

(** Saving always leaves a file behind, whole or truncated. *)
Lemma save_settings_file st : SETTINGS_FILE (save_settings st).1.1 <> FileAbsent.
Proof. unfold save_settings. destruct (json_serializable _); cbn; discriminate. Qed.

(** An item assignment followed by a save either raised before it changed
    anything, or left a file. *)
Lemma setitem_then_save k v st :
  let st' := ((setitem k v ;;; save_settings)%py st).1 in
  st'.1 = st.1 \/ SETTINGS_FILE st'.1 <> FileAbsent.
Proof.
  unfold bind. destruct (setitem k v st) as [st1 [[]|e]] eqn:E.
  - right. apply save_settings_file.
  - left. unfold setitem in E. destruct (document st); try (injection E as <- _; reflexivity).
    destruct (_settings st.2); discriminate.
Qed.

Lemma default_host_setter_cases v st :
  (default_host_setter v st).1 = st
  \/ default_host_setter v st = (setitem "default_host" v ;;; save_settings)%py st.
Proof.
  unfold default_host_setter. destruct (int_value v) as [n|]; [|left; reflexivity].
  unfold bind, require, ret, raise.
  destruct (n <? 0); [left; reflexivity|].
  destruct (hosts st) as [hs|e]; [|left; reflexivity]. cbn [rbind].
  destruct (Z.of_nat (length hs) <=? n); [left; reflexivity|].
  right. reflexivity.
Qed.

Lemma loglevel_setter_cases v st :
  (loglevel_setter v st).1 = st
  \/ loglevel_setter v st = (setitem "loglevel" v ;;; save_settings)%py st.
Proof.
  unfold loglevel_setter. destruct (int_value v) as [n|]; [|left; reflexivity].
  unfold bind, require, ret, raise.
  destruct ((-1 <? n) && (n <? 5)); [right|left]; reflexivity.
Qed.

Lemma run_op_world d o st :
  let st' := (run_op d o st).1 in
  st'.1 = st.1 \/ SETTINGS_FILE st'.1 <> FileAbsent.
Proof.
  destruct o as [| |hs|v|v]; cbn [run_op].
  - left. unfold load_settings. destruct (SETTINGS_FILE st.1); reflexivity.
  - right. apply save_settings_file.
  - apply setitem_then_save.
  - destruct (default_host_setter_cases v st) as [E|E]; rewrite E;
      [left; reflexivity|apply setitem_then_save].
  - destruct (loglevel_setter_cases v st) as [E|E]; rewrite E;
      [left; reflexivity|apply setitem_then_save].
Qed.

(** As long as no settings file exists, nothing has written through a
    reference to the shared default dict: it still is what the source says. *)
Lemma default_settings_pristine d w :
  reachable d w -> SETTINGS_FILE w = FileAbsent ->
  DEFAULT_SETTINGS w = DEFAULT_SETTINGS_literal.
Proof.
  induction 1 as [f|w s o Hw IH]; [reflexivity|].
  intros Hf. destruct (run_op_world d o (w, s)) as [E|E]; [|contradiction].
  cbn in E. rewrite E in *. auto.
Qed.

Lemma hosts_document st hs : hosts st = Ok hs -> exists d, document st = PyDict d.
Proof.
  unfold hosts, dict_get. destruct (document st); try discriminate. eauto.
Qed.

(** Write-through: on a document that can be encoded, an item assignment
    followed by a save stores the value and leaves the new document in the
    file. *)
Lemma setitem_save_serializable k v st d :
  document st = PyDict d ->
  json_serializable (PyDict d) = true -> json_serializable v = true ->
  let r := (setitem k v ;;; save_settings)%py st in
  r.2 = Ok tt
  /\ document r.1 = PyDict (<[k := v]> d)
  /\ SETTINGS_FILE r.1.1 = FileJson (PyDict (<[k := v]> d)).
Proof.
  intros Hdoc Hd Hv. unfold bind, setitem, save_settings. rewrite Hdoc.
  pose proof (serializable_insert d k v Hd Hv) as Hs.
  destruct st as [[g f] [[|doc]]]; unfold document in *;
    cbn [fst snd _settings DEFAULT_SETTINGS] in *; rewrite Hs; cbn; auto.
Qed.

(** Setting [hosts] to the empty list is written through, and read back. *)
Lemma hosts_setter_empty st d :
  document st = PyDict d -> json_serializable (PyDict d) = true ->
  let r := hosts_setter [] st in
  r.2 = Ok tt /\ hosts r.1 = Ok [] /\ SETTINGS_FILE r.1.1 = FileJson (document r.1).
Proof.
  intros Hd Hs r.
  destruct (setitem_save_serializable "hosts" (PyList []) st d Hd Hs eq_refl)
    as (H1 & H2 & H3).
  subst r. unfold hosts_setter. cbn [map]. split; [exact H1|].
  unfold hosts. rewrite H2, H3. cbn. rewrite lookup_insert_eq. auto.
Qed.

(** C3 (the code departs from it): the setter of [hosts], given a list of at
    least one [Host], stores the bound methods [host._asdict] instead of the
    dicts they would return; the in-memory document is updated, but the save
    raises [TypeError] and leaves a truncated file, and the [hosts] accessor
    raises on the stored document instead of giving the list back. *)
Theorem hosts_setter_stores_methods w (d : gmap string pyvalue) (h : Host) (hs : list Host) :
  let st := (w, mkSettings (RefOwn (PyDict d))) in
  let r := hosts_setter (h :: hs) st in
  r.2 = Raise (TypeError "Object of type method is not JSON serializable")
  /\ document r.1 = PyDict (<["hosts" := PyList (map asdict_method (h :: hs))]> d)
  /\ SETTINGS_FILE r.1.1 = FileTruncated (document r.1)
  /\ hosts r.1 = Raise (TypeError "argument after double star must be a mapping").
Proof.
  intros st r. subst r st.
  unfold hosts_setter, bind, setitem, save_settings. cbn [document fst snd _settings].
  rewrite not_serializable_insert by reflexivity.
  cbn [fst snd document _settings DEFAULT_SETTINGS SETTINGS_FILE].
  repeat split.
  unfold hosts. cbn [document snd _settings dict_get].
  rewrite lookup_insert_eq. reflexivity.
Qed.

(** C4: in every world the process can reach, loading while the settings
    file is absent yields the built-in default document: one host, the
    default one, [default_host] 0 and [loglevel] 1.  Loading a file that
    exists but cannot be read as JSON yields the document whose only entry is
    the error string; on it [hosts] is empty and [default_host] and [loglevel]
    read as their defaults 0 and 1.  Loading never changes the world. *)
Theorem load_settings_fallbacks d :
  (forall w s, reachable d w -> SETTINGS_FILE w = FileAbsent ->
     let st := (load_settings d (w, s)).1 in
     st.1 = w
     /\ document st = DEFAULT_SETTINGS_literal
     /\ hosts st = Ok [default_host_preset]
     /\ default_host st = Ok (PyInt 0)
     /\ loglevel st = Ok (PyInt 1))
  /\ (forall w s err, load_error d (SETTINGS_FILE w) = Some err ->
     let st := (load_settings d (w, s)).1 in
     st.1 = w
     /\ document st = error_document err
     /\ error st = Ok (PyStr err)
     /\ hosts st = Ok []
     /\ default_host st = Ok (PyInt 0)
     /\ loglevel st = Ok (PyInt 1)).
Proof.
  split.
  - intros w s Hw Hf st.
    assert (document st = DEFAULT_SETTINGS_literal) as Hdoc.
    { subst st. unfold load_settings. cbn. rewrite Hf. cbn.
      apply (default_settings_pristine d); assumption. }
    split; [subst st; unfold load_settings; cbn; rewrite Hf; reflexivity|].
    split; [exact Hdoc|].
    unfold hosts, default_host, loglevel. rewrite Hdoc.
    repeat split; vm_compute; reflexivity.
  - intros w s err He st.
    assert (st = (w, mkSettings (RefOwn (error_document err)))) as ->.
    { subst st. unfold load_settings. cbn.
      destruct (SETTINGS_FILE w); try discriminate; injection He as <-; reflexivity. }
    repeat split.
Qed.

(** At the start of a process: without a settings file, and with a file
    whose text is not JSON. *)
Lemma load_settings_fallbacks_witness :
  let d := fun _ : pyvalue => "Expecting value" in
  let w0 := mkWorld DEFAULT_SETTINGS_literal FileAbsent in
  let w1 := mkWorld DEFAULT_SETTINGS_literal (FileInvalid "Expecting value") in
  hosts (load_settings d (w0, init)).1 = Ok [default_host_preset]
  /\ hosts (load_settings d (w1, init)).1 = Ok []
  /\ error (load_settings d (w1, init)).1 = Ok (PyStr "Expecting value").
Proof.
  intros d w0 w1.
  destruct (proj1 (load_settings_fallbacks d) w0 init) as (_ & _ & H & _).
  { apply reachable_start. }
  { reflexivity. }
  destruct (proj2 (load_settings_fallbacks d) w1 init "Expecting value") as (_ & _ & He & H' & _).
  { reflexivity. }
  split; [exact H|]. split; [exact H'|exact He].
Defined.

(** C5: an integer outside [0, len(hosts)) assigned to [default_host], and an
    integer outside [0, 4] assigned to [loglevel], is refused with
    [ValueError] and changes nothing, neither the document nor the file; an
    integer inside the range is stored in the document, read back by the
    accessor, and written to the file in the same call. *)
Theorem setters_check_range (st : St) (n : Z) :
  (forall hs, hosts st = Ok hs -> n < 0 \/ Z.of_nat (length hs) <= n ->
     default_host_setter (PyInt n) st
     = (st, Raise (ValueError "Default host must be one of the hosts")))
  /\ (n < 0 \/ 4 < n ->
     loglevel_setter (PyInt n) st
     = (st, Raise (ValueError "loglevel must be between 0 and 4")))
  /\ (forall hs, hosts st = Ok hs -> json_serializable (document st) = true ->
     0 <= n < Z.of_nat (length hs) ->
     let r := default_host_setter (PyInt n) st in
     r.2 = Ok tt
     /\ default_host r.1 = Ok (PyInt n)
     /\ SETTINGS_FILE r.1.1 = FileJson (document r.1))
  /\ (forall d, document st = PyDict d -> json_serializable (document st) = true ->
     0 <= n <= 4 ->
     let r := loglevel_setter (PyInt n) st in
     r.2 = Ok tt
     /\ loglevel r.1 = Ok (PyInt n)
     /\ SETTINGS_FILE r.1.1 = FileJson (document r.1)).
Proof.
  split; [|split; [|split]].
  - intros hs Hhs Hn. unfold default_host_setter, bind, require, ret, raise. cbn [int_value].
    destruct (Z.ltb_spec n 0); [reflexivity|].
    rewrite Hhs. cbn [rbind].
    destruct (Z.leb_spec (Z.of_nat (length hs)) n); [reflexivity|lia].
  - intros Hn. unfold loglevel_setter, bind, require, ret, raise. cbn [int_value].
    destruct (Z.ltb_spec (-1) n), (Z.ltb_spec n 5); try reflexivity; lia.
  - intros hs Hhs Hser Hn r.
    destruct (hosts_document st hs Hhs) as [d Hd].
    assert (r = (setitem "default_host" (PyInt n) ;;; save_settings)%py st) as ->.
    { subst r. unfold default_host_setter, bind, require, ret, raise. cbn [int_value].
      destruct (Z.ltb_spec n 0); [lia|]. rewrite Hhs. cbn [rbind].
      destruct (Z.leb_spec (Z.of_nat (length hs)) n); [lia|]. reflexivity. }
    rewrite Hd in Hser.
    destruct (setitem_save_serializable "default_host" (PyInt n) st d Hd Hser eq_refl)
      as (H1 & H2 & H3).
    split; [exact H1|]. unfold default_host. rewrite H2, H3. cbn.
    rewrite lookup_insert_eq. auto.
  - intros d Hd Hser Hn r.
    assert (r = (setitem "loglevel" (PyInt n) ;;; save_settings)%py st) as ->.
    { subst r. unfold loglevel_setter, bind, require, ret, raise. cbn [int_value].
      destruct (Z.ltb_spec (-1) n), (Z.ltb_spec n 5); try lia. reflexivity. }
    rewrite Hd in Hser.
    destruct (setitem_save_serializable "loglevel" (PyInt n) st d Hd Hser eq_refl)
      as (H1 & H2 & H3).
    split; [exact H1|]. unfold loglevel. rewrite H2, H3. cbn.
    rewrite lookup_insert_eq. auto.
Qed.

Lemma setters_check_range_witness :
  let st := (mkWorld DEFAULT_SETTINGS_literal FileAbsent, mkSettings RefDefault) in
  (default_host_setter (PyInt 1) st).1 = st
  /\ (loglevel_setter (PyInt 5) st).1 = st
  /\ default_host (default_host_setter (PyInt 0) st).1 = Ok (PyInt 0)
  /\ loglevel (loglevel_setter (PyInt 4) st).1 = Ok (PyInt 4).
Proof.
  intros st.
  assert (hosts st = Ok [default_host_preset]) as Hh by (vm_compute; reflexivity).
  assert (json_serializable (document st) = true) as Hs by (vm_compute; reflexivity).
  split; [|split; [|split]].
  - rewrite (proj1 (setters_check_range st 1) _ Hh); [reflexivity|cbn; lia].
  - rewrite (proj1 (proj2 (setters_check_range st 5))); [reflexivity|lia].
  - apply (proj1 (proj2 (proj2 (setters_check_range st 0))) _ Hh Hs). cbn; lia.
  - eapply (proj2 (proj2 (proj2 (setters_check_range st 4)))); [reflexivity|exact Hs|lia].
Defined.

End SettingsFacts.

(** ** The mediator *)

Module AppFacts.
Import AppPy Spec.

Ltac simp := cbn -[Nat.ltb Nat.sub drop].

Ltac run_monad :=
  unfold async_connect, async_disconnect, client_disconnect, speaker_truthy,
    suppress, try_except, bind, getattr, set_speaker, extern, ret, raise in *;
  cbn in *.

(** One call of the receiver on a history within its bound. *)
Lemma event_receiver_step a h l cs e :
  (length l <= 1000)%nat ->
  event_receiver e (mkSys (listening a h l) cs)
  = (mkSys (listening a h (newest (l ++ [e])))
           (cs ++ [CallNewEvent e (1000 <? length l + 1)%nat]), Ok tt).
Proof.
  intros Hl.
  unfold event_receiver, bind, getattr, new_event, set_events, set_gui, extern, ret; simp.
  rewrite length_app; cbn [length].
  unfold newest. rewrite length_app; cbn [length].
  destruct (1000 <? length l + 1)%nat eqn:Ht; simp.
  - apply Nat.ltb_lt in Ht.
    assert (length l = 1000)%nat as Hlen by lia.
    rewrite Hlen. replace (1000 + 1 - 1000)%nat with 1%nat by lia.
    destruct l as [|x t]; [discriminate|]. reflexivity.
  - apply Nat.ltb_ge in Ht.
    replace (length l + 1 - 1000)%nat with 0%nat by lia. reflexivity.
Qed.

Lemma newest_length l : (length (newest l) <= 1000)%nat.
Proof. unfold newest. rewrite length_drop. lia. Qed.

Lemma newest_snoc l e evs :
  newest (newest (l ++ [e]) ++ evs) = newest (l ++ e :: evs).
Proof.
  unfold newest.
  rewrite <- (drop_app_le (l ++ [e]) evs) by (rewrite length_app; cbn; lia).
  rewrite drop_drop, <- app_assoc. cbn [app].
  f_equal. rewrite length_drop, !length_app. cbn [length]. lia.
Qed.

(** A delivery that starts from any history within the bound. *)
Lemma deliver_from a h evs : forall l cs,
  (length l <= 1000)%nat ->
  deliver evs (mkSys (listening a h l) cs)
  = (mkSys (listening a h (newest (l ++ evs))) (cs ++ flagged (length l) evs), Ok tt).
Proof.
  induction evs as [|e evs IH]; intros l cs Hl.
  - simp. unfold ret, flagged. simp. rewrite !app_nil_r.
    unfold newest. replace (length l - 1000)%nat with 0%nat by lia. reflexivity.
  - cbn [deliver]. unfold bind at 1. rewrite event_receiver_step by exact Hl.
    rewrite IH by apply newest_length.
    rewrite newest_snoc.
    f_equal. f_equal. rewrite <- app_assoc. f_equal.
    unfold flagged. rewrite imap_cons. change ([?c] ++ ?x)%list with (c :: x). f_equal.
    + rewrite Nat.add_0_r. reflexivity.
    + apply imap_ext. intros i x _. unfold compose. f_equal.
      unfold newest. rewrite length_drop, length_app. cbn [length].
      destruct (Nat.ltb_spec 1000 (length l + S i + 1));
        destruct (Nat.ltb_spec 1000 (length l + 1 - (length l + 1 - 1000) + i + 1));
        try reflexivity; lia.
Qed.

(** The eviction logic, once a history exists.  From an empty history,
    whatever events are delivered, every call of the receiver returns;
    afterwards the history holds the last 1000 of them
    in their order of arrival (all of them while there are at most 1000), so
    never more than 1000; the GUI was notified once per event, in order, with
    the eviction flag false for the first 1000 events and true for every
    later one; and the rows of the list box are the history. *)
Theorem event_history_bounded a h cs (evs : list ApiResponse.t) :
  deliver evs (mkSys (listening a h []) cs)
  = (mkSys (listening a h (newest evs)) (cs ++ flagged 0 evs), Ok tt)
  /\ (length (newest evs) <= 1000)%nat.
Proof.
  split; [|apply newest_length].
  rewrite deliver_from by (cbn; lia). reflexivity.
Qed.

(** After 1001 events, the 1000 that remain are all but the first. *)
Lemma history_after_1001 (evs : list ApiResponse.t) :
  length evs = 1001%nat -> newest evs = tail evs /\ length (tail evs) = 1000%nat.
Proof.
  intros H. unfold newest. rewrite H.
  replace (1001 - 1000)%nat with 1%nat by lia.
  destruct evs; [discriminate|]. cbn [drop tail]. cbn in H. split; [reflexivity|lia].
Qed.

(** 1001 events, told apart by their [data]: the first 1000 are delivered
    without eviction, the last one evicts the first. *)
Example deliver_1001 :
  let ev := fun i : nat =>
    ApiResponse.mk "" "UIC" "VolumeLevel" "" "1.0" "192.168.1.100" (PyBool true)
      (PyInt (Z.of_nat i)) "" "" in
  let h := mkHeader "192.168.1.100" "55001" false false true true in
  let a := mkApp SettingsPy.init None None None None in
  let s := (deliver (map ev (seq 0 1001)) (mkSys (listening a h []) [])).1 in
  events (app s) = Some (map ev (seq 1 1000))
  /\ calls s !! 999%nat = Some (CallNewEvent (ev 999%nat) false)
  /\ calls s !! 1000%nat = Some (CallNewEvent (ev 1000%nat) true).
Proof. vm_compute. repeat split. Qed.

(** The flag of event number [i] (from 0) is set exactly from the 1001st on. *)
Lemma flagged_lookup (evs : list ApiResponse.t) i e :
  evs !! i = Some e -> flagged 0 evs !! i = Some (CallNewEvent e (1000 <=? i)%nat).
Proof.
  intros H. unfold flagged. rewrite list_lookup_imap, H. cbn [fmap option_fmap option_map].
  do 2 f_equal.
  destruct (Nat.ltb_spec 1000 (0 + i + 1)), (Nat.leb_spec 1000 i); try reflexivity; lia.
Qed.

(** C8: whatever the handle attribute holds (nothing, [None] or a handle)
    and however the library answers the close, [async_disconnect] returns
    without raising and leaves the handle [None] and every other attribute
    as it was; run again from there, it returns again and changes nothing,
    makes no further call included. *)
Theorem async_disconnect_idempotent (lib lib' : DeviceLib) (s : Sys) :
  let s' := (async_disconnect lib s).1 in
  (async_disconnect lib s).2 = Ok tt
  /\ app s' = cleared (app s)
  /\ async_disconnect lib' s' = (s', Ok tt).
Proof.
  destruct s as [[st g q sp ev] cs], lib as [o1 o2 o3 o4 o5 o6].
  destruct sp as [[h|]|], o6; run_monad; auto.
Qed.

(** C2 (the code departs from it): on a mediator as [__init__] leaves it,
    when the construction of the handle raises [e], the handler's test of
    [self.speaker] reads an attribute that was never assigned: the call ends
    with [AttributeError], not with [e], and no teardown is attempted. *)
Theorem async_connect_masks_constructor_failure d w cs ip port e o2 o3 o4 o5 o6 :
  let s := mkSys (init d w) cs in
  async_connect (mkDeviceLib (Some e) o2 o3 o4 o5 o6) ip port s
  = (mkSys (init d w) (cs ++ [CallSpeaker ip port]), Raise (no_attribute "speaker")).
Proof. reflexivity. Qed.

(** In every other case a failed connect is rolled back: when the handle
    attribute has been assigned before, or the construction succeeds, the
    first failure is what the caller gets, the handle ends as [None], and the
    answer of the library to the teardown makes no difference. *)
Lemma async_connect_failure_rolls_back lib ip port s e :
  first_failure lib = Some e ->
  speaker (app s) <> None \/ on_Speaker lib = None ->
  (async_connect lib ip port s).2 = Raise e
  /\ app (async_connect lib ip port s).1 = cleared (app s).
Proof.
  destruct s as [[st g q sp ev] cs], lib as [o1 o2 o3 o4 o5 o6].
  unfold first_failure; cbn.
  intros Hf Hs.
  destruct o1; [destruct sp as [[h|]|]; [| |destruct Hs; congruence]|].
  all: repeat match goal with
       | o : outcome |- _ => destruct o
       | H : Some _ = Some _ |- _ => injection H as <-
       end; try discriminate; run_monad; auto.
Qed.

Lemma async_connect_success lib ip port s :
  first_failure lib = None ->
  (async_connect lib ip port s).2 = Ok tt
  /\ speaker (app (async_connect lib ip port s).1) = Some (Some (mkSpeaker ip port)).
Proof.
  destruct s as [[st g q sp ev] cs], lib as [o1 o2 o3 o4 o5 o6].
  unfold first_failure; cbn. intros Hf.
  repeat match goal with o : outcome |- _ => destruct o end; try discriminate;
    run_monad; auto.
Qed.

End AppFacts.

(** ** Validation of API calls and of their arguments *)

Module ValidationFacts.
Import AppPy Spec.

Lemma isinstance_int_spec v : isinstance_int v = true <-> is_integer v.
Proof.
  split.
  - destruct v; try discriminate; constructor.
  - intros []; reflexivity.
Qed.

Lemma forallb_isinstance_int l : forallb isinstance_int l = true <-> Forall is_integer l.
Proof.
  rewrite forallb_forall, Forall_forall.
  split; intros H x Hx; apply isinstance_int_spec, H; apply list_elem_of_In; exact Hx.
Qed.

Lemma valid_argument_accepted t :
  valid_argument t -> validate_api_call_arguments t = Ok tt.
Proof.
  intros [name value ty Hname Hty Hshape].
  unfold validate_api_call_arguments, reject, rbind. cbn [isinstance_str negb truthy].
  rewrite bool_decide_eq_false_2 by exact Hname. cbn [negb].
  repeat (apply elem_of_cons in Hty as [->|Hty]); [..|inversion Hty].
  all: inversion Hshape as [v Hv|v Hv|v Hv|l Hl]; subst; try discriminate.
  all: try (destruct Hv; reflexivity).
  apply forallb_isinstance_int in Hl. cbn. rewrite Hl. reflexivity.
Qed.

Lemma accepted_valid_argument t :
  validate_api_call_arguments t = Ok tt -> valid_argument t.
Proof.
  unfold validate_api_call_arguments.
  destruct t as [| | | |l|l| |]; try discriminate.
  destruct l as [|a0 [|a1 [|a2 [|]]]]; try discriminate.
  unfold reject, rbind.
  destruct a0 as [| | |name| | | |]; try discriminate.
  cbn [isinstance_str negb truthy].
  destruct (bool_decide_reflect (name = "")) as [|Hname]; [discriminate|]. cbn [negb].
  destruct a2 as [| | |ty| | | |]; cbn [isinstance_str negb truthy]; try discriminate.
  cbn [eq_str].
  destruct (bool_decide_reflect (ty = "str")) as [->|Hstr].
  { cbn. destruct a1; try discriminate. intros _.
    constructor; [assumption| set_solver |repeat constructor]. }
  destruct (bool_decide_reflect (ty = "dec")) as [->|Hdec].
  { cbn. destruct a1; try discriminate; intros _.
    all: constructor; [assumption| set_solver |repeat constructor]. }
  destruct (bool_decide_reflect (ty = "cdata")) as [->|Hcdata].
  { cbn. destruct a1; try discriminate; intros _.
    constructor; [assumption| set_solver |]. apply shape_cdata. constructor. }
  destruct (bool_decide_reflect (ty = "dec_arr")) as [->|Harr]; [|discriminate].
  cbn. destruct a1 as [| | | |l| | |]; try discriminate.
  destruct (forallb isinstance_int l) eqn:Hl; [|discriminate]. intros _.
  constructor; [assumption| set_solver |].
  constructor. apply forallb_isinstance_int. exact Hl.
Qed.

(** C7: [validate_api_call_arguments] returns exactly on the tuples of three
    elements whose name is a non-empty string, whose declared type is one of
    str, dec, cdata, dec_arr, and whose value has the shape the type asks for
    (an integer for dec, a string for str and cdata, a list of integers for
    dec_arr), and raises on everything else; the four triples of the
    specification come out as it says. *)
Theorem validate_argument_characterised :
  (forall t, validate_api_call_arguments t = Ok tt <-> valid_argument t)
  /\ validate_api_call_arguments (PyTuple [PyStr "vol"; PyInt 10; PyStr "dec"]) = Ok tt
  /\ validate_api_call_arguments
       (PyTuple [PyStr "x"; PyList [PyInt 1; PyInt 2; PyInt 3]; PyStr "dec_arr"]) = Ok tt
  /\ validate_api_call_arguments (PyTuple [PyStr "vol"; PyStr "10"; PyStr "dec"])
     = Raise (TypeError "Argument value is not an integer.")
  /\ validate_api_call_arguments
       (PyTuple [PyStr "x"; PyList [PyInt 1; PyStr "a"]; PyStr "dec_arr"])
     = Raise (TypeError "Argument value is not a list of integers.").
Proof.
  split; [|repeat split; reflexivity].
  intros t; split; [apply accepted_valid_argument|apply valid_argument_accepted].
Qed.

(** C6: on a call whose other fields pass, [timeout_multiple] 6 is refused
    with the error for a timeout that is too high, 5 is accepted, and an
    integer is accepted exactly when it is at most 5. *)
Theorem timeout_multiple_boundary (c : ApiCall.t) :
  other_fields_valid c ->
  validate_api_call (ApiCall.with_timeout c (PyInt 6))
  = Raise (ValueError "timeout_multiple is too high.")
  /\ validate_api_call (ApiCall.with_timeout c (PyInt 5)) = Ok tt
  /\ (forall n, validate_api_call (ApiCall.with_timeout c (PyInt n)) = Ok tt <-> n <= 5).
Proof.
  intros [Hty Hm [l Hl] [b Hb] [b' Hb']].
  assert (forall n, validate_api_call (ApiCall.with_timeout c (PyInt n))
                    = reject (5 <? n) (ValueError "timeout_multiple is too high.")) as E.
  { intros n. unfold validate_api_call. destruct c as [ty m p a er uc tm]; cbn in *.
    subst a p uc. rewrite Hm. destruct Hty as [-> | ->]; reflexivity. }
  rewrite !E. split; [reflexivity|]. split; [reflexivity|].
  intros n. rewrite E. unfold reject.
  destruct (Z.ltb_spec 5 n); split; (discriminate || lia || reflexivity).
Qed.

Lemma timeout_multiple_boundary_witness :
  let c := ApiCall.mk (PyStr "UIC") (PyStr "GetVolume") (PyBool false) (PyList [])
             (PyStr "") (PyBool false) (PyInt 1) in
  validate_api_call (ApiCall.with_timeout c (PyInt 6))
  = Raise (ValueError "timeout_multiple is too high.")
  /\ validate_api_call (ApiCall.with_timeout c (PyInt 5)) = Ok tt.
Proof.
  intros c.
  destruct (timeout_multiple_boundary c) as (H6 & H5 & _).
  - constructor; cbn; eauto.
  - split; assumption.
Defined.

(** Whatever the other fields are, a call with [timeout_multiple] 6 raises. *)
Lemma timeout_6_never_accepted c :
  is_ok (validate_api_call (ApiCall.with_timeout c (PyInt 6))) = false.
Proof.
  unfold validate_api_call, reject, rbind. cbn.
  repeat match goal with |- context [if ?b then _ else _] => destruct b end; reflexivity.
Qed.

End ValidationFacts.

(** ** The add-argument dialog and the main loop *)

Module GuiFacts.
Import AppPy GuiPy Spec.

Section Builtins.
Variable py_int : string -> option Z.
Variable py_strip : string -> string.
Variable py_split : string -> list string.

Lemma mapM_int_fails l s :
  s ∈ l -> py_int s = None -> is_ok (mapM (int_ py_int) l) = false.
Proof.
  induction 1 as [s l|s x l Hs IH]; intros Hn; cbn.
  - unfold int_. rewrite Hn. reflexivity.
  - destruct (int_ py_int x); [|reflexivity]. cbn.
    specialize (IH Hn). destruct (mapM (int_ py_int) l); [discriminate|reflexivity].
Qed.

Lemma entered_value_unparsable d :
  unparsable py_int py_strip py_split d ->
  entered_value py_int py_strip py_split d = PyStr "".
Proof.
  unfold entered_value.
  intros [[Hty Hn]|[Hty (s & Hs & Hn)]]; rewrite Hty; cbn.
  - unfold int_. rewrite Hn. reflexivity.
  - pose proof (mapM_int_fails _ _ Hs Hn) as Hf.
    destruct (mapM (int_ py_int) _); [discriminate|reflexivity].
Qed.

Lemma coerced_empty_rejected t :
  coerced_empty t -> is_ok (validate_api_call_arguments t) = false.
Proof.
  intros (name & ty & -> & Hty). unfold validate_api_call_arguments, reject, rbind.
  destruct name; try reflexivity. cbn [isinstance_str negb truthy].
  destruct (bool_decide (s = "")); [reflexivity|].
  destruct Hty as [-> | ->]; reflexivity.
Qed.

Lemma unparsable_coerced d :
  unparsable py_int py_strip py_split d ->
  coerced_empty (entered_args py_int py_strip py_split d).
Proof.
  intros H. unfold entered_args. rewrite (entered_value_unparsable d H).
  exists (PyStr (py_strip (ArgumentsDialog.ent_name d))), (ArgumentsDialog.cbx_type d).
  split; [reflexivity|]. destruct H as [[-> _]|[-> _]]; auto.
Qed.

(** With a name entered, it is the check of the value's shape that refuses
    the coerced triple. *)
Lemma unparsable_shape_error d :
  unparsable py_int py_strip py_split d ->
  py_strip (ArgumentsDialog.ent_name d) = ""
  \/ validate_api_call_arguments (entered_args py_int py_strip py_split d)
     = Raise (TypeError (if bool_decide (ArgumentsDialog.cbx_type d = "dec")
                         then "Argument value is not an integer."
                         else "Argument value is not a list.")).
Proof.
  intros H. unfold entered_args. rewrite (entered_value_unparsable d H).
  destruct (decide (py_strip (ArgumentsDialog.ent_name d) = "")) as [|Hn]; [left; assumption|].
  right. unfold validate_api_call_arguments, reject, rbind.
  cbn [isinstance_str negb truthy]. rewrite bool_decide_eq_false_2 by exact Hn.
  destruct H as [[-> _]|[-> _]]; reflexivity.
Qed.

Lemma add_argument_result_ok d :
  result_ok d -> result_ok (add_argument py_int py_strip py_split d).
Proof.
  intros H. unfold add_argument.
  destruct (validate_api_call_arguments (entered_args py_int py_strip py_split d))
    as [[]|e] eqn:E; [right; exact E|exact H].
Qed.

Lemma dialog_step_result_ok d ev :
  result_ok d -> result_ok (dialog_step py_int py_strip py_split d ev).
Proof.
  intros H. unfold dialog_step. destruct (ArgumentsDialog.closed d); [exact H|].
  destruct ev; try exact H. apply add_argument_result_ok, H.
Qed.

Lemma run_dialog_result_ok session :
  result_ok (run_dialog py_int py_strip py_split session).
Proof.
  unfold run_dialog.
  assert (forall d, result_ok d ->
            result_ok (fold_left (dialog_step py_int py_strip py_split) session d)) as H.
  { induction session as [|ev session IH]; intros d Hd; [exact Hd|].
    cbn. apply IH, dialog_step_result_ok, Hd. }
  apply (H ArgumentsDialog.init). left. reflexivity.
Qed.

(** C9: when the selected type is dec or dec_arr and the entered text does
    not parse, the dialog goes on with the empty string as the value, without
    a message about the parse; the validation then refuses the triple, so
    that [result] and the open dialog stay as they were and one error box is
    shown.  And whatever the user does in the dialog, the triple that the
    send window appends to its arguments is never one with a numeric type and
    the empty string as its value. *)
Theorem unparsable_value_never_added :
  (forall d, unparsable py_int py_strip py_split d ->
     entered_value py_int py_strip py_split d = PyStr ""
     /\ is_ok (validate_api_call_arguments (entered_args py_int py_strip py_split d)) = false
     /\ (py_strip (ArgumentsDialog.ent_name d) = ""
         \/ validate_api_call_arguments (entered_args py_int py_strip py_split d)
            = Raise (TypeError (if bool_decide (ArgumentsDialog.cbx_type d = "dec")
                                then "Argument value is not an integer."
                                else "Argument value is not a list.")))
     /\ ArgumentsDialog.result (add_argument py_int py_strip py_split d)
        = ArgumentsDialog.result d
     /\ ArgumentsDialog.closed (add_argument py_int py_strip py_split d)
        = ArgumentsDialog.closed d
     /\ length (ArgumentsDialog.errors (add_argument py_int py_strip py_split d))
        = S (length (ArgumentsDialog.errors d)))
  /\ (forall session arguments,
        exists t, SendApiWindows_add_argument py_int py_strip py_split session arguments
                  = (arguments ++ [t])%list
                  /\ ~ coerced_empty t).
Proof.
  split.
  - intros d H. split; [apply entered_value_unparsable, H|].
    pose proof (coerced_empty_rejected _ (unparsable_coerced d H)) as Hr.
    split; [exact Hr|]. split; [apply unparsable_shape_error, H|].
    unfold add_argument.
    destruct (validate_api_call_arguments _); [discriminate|]. cbn.
    rewrite length_app. cbn. repeat split. lia.
  - intros session arguments. unfold SendApiWindows_add_argument.
    destruct (run_dialog_result_ok session) as [E|E].
    + rewrite E. cbn. eexists; split; [reflexivity|].
      intros (name & ty & [= _ <-] & [H|H]); discriminate H.
    + pose proof E as E'. unfold validate_api_call_arguments in E'.
      destruct (ArgumentsDialog.result _) as [| | | | |l| |] eqn:R; try discriminate.
      destruct l as [|a0 l]; [discriminate|]. cbn.
      eexists; split; [reflexivity|].
      intros Hc. apply coerced_empty_rejected in Hc. rewrite E in Hc. discriminate.
Qed.

(** While the user does not click Connect, the window stays idle: the
    disconnect button is disabled, no task is queued, and [speaker] stays
    unassigned. *)
Lemma show_without_connect session : forall a ip0 port0 rows cs,
  forallb (fun ev => negb (is_connect ev)) session = true ->
  exists ip1 port1,
    show py_int session (mkSys (idle a ip0 port0 rows) cs)
    = (mkSys (idle a ip1 port1 rows) cs, Ok tt).
Proof.
  induction session as [|ev session IH]; intros a ip0 port0 rows cs Hs.
  - exists ip0, port0. reflexivity.
  - cbn in Hs. apply andb_true_iff in Hs as [Hev Hs].
    destruct ev as [s|s|lib|lib]; try discriminate Hev.
    + destruct (IH a s port0 rows cs Hs) as (ip1 & port1 & E).
      exists ip1, port1. cbn [show]. rewrite <- E. reflexivity.
    + destruct (IH a ip0 s rows cs Hs) as (ip1 & port1 & E).
      exists ip1, port1. cbn [show]. rewrite <- E. reflexivity.
    + destruct (IH a ip0 port0 rows cs Hs) as (ip1 & port1 & E).
      exists ip1, port1. cbn [show]. rewrite <- E. reflexivity.
Qed.

(** C10 (amended): [__init__] assigns neither the history nor the session
    handle; on the mediator it leaves, the event receiver raises
    [AttributeError] for the history without changing anything, and [run],
    when the settings hold no error (so that the window constructor keeps
    the window it built) and the user closes the window without ever having
    clicked Connect (so that neither [connect] nor [disconnect] was called),
    raises [AttributeError] for the session handle at its shutdown test. *)
Theorem unassigned_attributes_raise d w w' cs e ip0 port0 session lib :
  forallb (fun ev => negb (is_connect ev)) session = true ->
  Vocabulary.loaded_clean w' (AppPy.init d w) ->
  let s := mkSys (AppPy.init d w) cs in
  (speaker (app s) = None /\ events (app s) = None)
  /\ event_receiver e s = (s, Raise (no_attribute "events"))
  /\ (run py_int w' (Ok (ip0, port0)) session lib s).2 = Raise (no_attribute "speaker").
Proof.
  intros Hs (v & Hv & Hf) s. split; [split; reflexivity|]. split; [reflexivity|].
  destruct (show_without_connect session (app s) ip0 port0 [] cs Hs)
    as (ip1 & port1 & E).
  unfold run, Window_init, settings_error, bind.
  cbn [set_aio_loop app calls settings s].
  cbn [settings app] in Hv. rewrite Hv. cbn [rbind]. rewrite Hf.
  cbn [set_gui ret negb app calls settings gui aio_loop speaker events].
  change (show py_int session ?x)
    with (show py_int session (mkSys (idle (app s) ip0 port0 []) cs)).
  rewrite E. reflexivity.
Qed.

(** With an error in the settings, the window that the constructor built is
    closed before [run] shows it: [run] ends with Tk's error, whatever the
    session would have been, and the shutdown test is not reached. *)
Lemma run_on_closed_window w' ip0 port0 session lib (s : Sys) :
  Vocabulary.reports_error w' (app s) ->
  (run py_int w' (Ok (ip0, port0)) session lib s).2
  = Raise (LibError "TclError" "application has been destroyed").
Proof.
  intros (v & Hv & Ht).
  unfold run, Window_init, settings_error, bind.
  cbn [set_aio_loop app calls settings]. rewrite Hv. cbn [rbind]. rewrite Ht. reflexivity.
Qed.

End Builtins.

Lemma unparsable_value_never_added_witness :
  let d := ArgumentsDialog.mk "vol" "1x" "dec" (PyTuple [PyStr ""; PyStr ""; PyStr ""])
             false [] in
  entered_value ascii_int ascii_strip ascii_split d = PyStr ""
  /\ ArgumentsDialog.result (add_argument ascii_int ascii_strip ascii_split d)
     = ArgumentsDialog.result d.
Proof.
  intros d.
  destruct (proj1 (unparsable_value_never_added ascii_int ascii_strip ascii_split) d)
    as (H1 & _ & _ & H3 & _).
  - left. split; reflexivity.
  - split; assumption.
Defined.

Lemma unassigned_attributes_raise_witness :
  let w := SettingsPy.mkWorld SettingsPy.DEFAULT_SETTINGS_literal SettingsPy.FileAbsent in
  (run ascii_int w (Ok ("192.168.1.100", "55001"))
       [TypePort "55002"; ClickDisconnect quiet] quiet
       (mkSys (AppPy.init (fun _ => "") w) [])).2
  = Raise (no_attribute "speaker").
Proof.
  intros w.
  apply (unassigned_attributes_raise ascii_int (fun _ => "") w w []
           (ApiResponse.mk "" "" "" "" "" "" PyNone PyNone "" "")).
  - reflexivity.
  - exists PyNone. split; reflexivity.
Defined.

(** C10 as it is stated does not hold.  A fresh mediator, settings without
    an error, the window built with the port entry showing a text that
    [int] refuses; the user clicks Connect once and closes the window.  The
    click makes [Header.connect] raise at [int(...)], before it calls
    [App.connect]: its handler calls [Header.disconnect], so the only task
    created is the one of [App.disconnect], whose [async_disconnect] assigns
    [None] to [speaker].  No connect sequence ran (nothing is recorded: the
    close was tried on a handle that does not exist), and [run] returns
    instead of raising [AttributeError].  And when the settings file is a
    document with an ["ERROR"] entry, the constructor closes the window it
    built and [run] ends with Tk's error, again without a call of
    [connect]. *)
Lemma run_returns_without_connect_call :
  let w := SettingsPy.mkWorld SettingsPy.DEFAULT_SETTINGS_literal SettingsPy.FileAbsent in
  let s := mkSys (AppPy.init (fun _ => "") w) [] in
  let built := mkSys (idle (app s) "192.168.1.100" "55oo1" []) [] in
  let r := run ascii_int w (Ok ("192.168.1.100", "55oo1")) [ClickConnect quiet] quiet s in
  let w2 := SettingsPy.mkWorld SettingsPy.DEFAULT_SETTINGS_literal
              (SettingsPy.FileJson
                 (PyDict (<["ERROR" := PyStr "edited by hand"]>
                            (<["hosts" := PyList [PyDict SettingsPy.DEFAULT_HOST]]>
                               (<["loglevel" := PyInt 1]>
                                  (<["default_host" := PyInt 0]> ∅)))))) in
  let s2 := mkSys (AppPy.init (fun _ => "") w2) [] in
  let r2 := run ascii_int w2 (Ok ("192.168.1.100", "55001")) [] quiet s2 in
  (events (app s) = None /\ speaker (app s) = None)
  /\ aio_loop (app (suppress (dispatch ascii_int (ClickConnect quiet)) built).1)
     = Some [TaskDisconnect quiet]
  /\ calls r.1 = []
  /\ speaker (app r.1) = Some None
  /\ r.2 = Ok tt
  /\ r.2 <> Raise (no_attribute "speaker")
  /\ SettingsPy.error (w2, settings (app s2)) = Ok (PyStr "edited by hand")
  /\ calls r2.1 = []
  /\ r2.2 = Raise (LibError "TclError" "application has been destroyed")
  /\ r2.2 <> Raise (no_attribute "speaker").
Proof. vm_compute. repeat split; discriminate. Qed.

End GuiFacts.

(** ** The settings store, continued *)

Module SettingsMore.
Import SettingsPy Spec Vocabulary SettingsFacts.

Lemma loglevel_setter_in_range n st :
  0 <= n <= 4 ->
  loglevel_setter (PyInt n) st = (setitem "loglevel" (PyInt n) ;;; save_settings)%py st.
Proof.
  intros Hn. unfold loglevel_setter, bind, require, ret, raise. cbn [int_value].
  destruct (Z.ltb_spec (-1) n), (Z.ltb_spec n 5); try lia. reflexivity.
Qed.

Lemma default_host_setter_in_range n st hs :
  hosts st = Ok hs -> 0 <= n < Z.of_nat (length hs) ->
  default_host_setter (PyInt n) st
  = (setitem "default_host" (PyInt n) ;;; save_settings)%py st.
Proof.
  intros Hhs Hn. unfold default_host_setter, bind, require, ret, raise. cbn [int_value].
  destruct (Z.ltb_spec n 0); [lia|]. rewrite Hhs. cbn [rbind].
  destruct (Z.leb_spec (Z.of_nat (length hs)) n); [lia|]. reflexivity.
Qed.

(** X1: what a setter stored is what the next load reads, by whichever
    [Settings] object: for [loglevel] and for [default_host], a value in
    range set on an encodable document comes back from the file. *)
Theorem setters_persist d (st : St) (n : Z) :
  json_serializable (document st) = true ->
  (forall dct, document st = PyDict dct -> 0 <= n <= 4 ->
     forall s, loglevel (load_settings d ((loglevel_setter (PyInt n) st).1.1, s)).1
               = Ok (PyInt n))
  /\ (forall hs, hosts st = Ok hs -> 0 <= n < Z.of_nat (length hs) ->
     forall s, default_host (load_settings d ((default_host_setter (PyInt n) st).1.1, s)).1
               = Ok (PyInt n)).
Proof.
  intros Hser. split.
  - intros dct Hd Hn s. rewrite loglevel_setter_in_range by exact Hn.
    rewrite Hd in Hser.
    destruct (setitem_save_serializable "loglevel" (PyInt n) st dct Hd Hser eq_refl)
      as (_ & _ & Hf).
    unfold loglevel, load_settings. cbn [fst snd]. rewrite Hf.
    unfold document. cbn [fst snd _settings json_image dict_get].
    rewrite lookup_fmap, lookup_insert_eq. reflexivity.
  - intros hs Hhs Hn s. rewrite (default_host_setter_in_range n st hs Hhs Hn).
    destruct (hosts_document st hs Hhs) as [dct Hd]. rewrite Hd in Hser.
    destruct (setitem_save_serializable "default_host" (PyInt n) st dct Hd Hser eq_refl)
      as (_ & _ & Hf).
    unfold default_host, load_settings. cbn [fst snd]. rewrite Hf.
    unfold document. cbn [fst snd _settings json_image dict_get].
    rewrite lookup_fmap, lookup_insert_eq. reflexivity.
Qed.

Lemma setters_persist_witness :
  let d := fun _ : pyvalue => "" in
  let st := (mkWorld DEFAULT_SETTINGS_literal FileAbsent, mkSettings RefDefault) in
  loglevel (load_settings d ((loglevel_setter (PyInt 3) st).1.1, init)).1 = Ok (PyInt 3).
Proof.
  intros d st.
  eapply (proj1 (setters_persist d st 3 _)); [reflexivity|lia].
  Unshelve. vm_compute. reflexivity.
Defined.

(** X2: two [Settings] objects that loaded while no file existed hold the
    same dict, the module's [DEFAULT_SETTINGS]: a log level set through one
    is read through the other without a reload, and the module's default has
    changed with it.  A setter on an object with a document of its own
    leaves the module's default alone. *)
Theorem default_document_is_shared d w s1 s2 n :
  reachable d w -> SETTINGS_FILE w = FileAbsent -> 0 <= n <= 4 ->
  let st1 := (load_settings d (w, s1)).1 in
  let other := (load_settings d (w, s2)).1.2 in
  let r := loglevel_setter (PyInt n) st1 in
  r.2 = Ok tt
  /\ loglevel (r.1.1, other) = Ok (PyInt n)
  /\ dict_get "loglevel" PyNone (DEFAULT_SETTINGS r.1.1) = Ok (PyInt n)
  /\ (forall doc v,
        DEFAULT_SETTINGS (loglevel_setter v (w, mkSettings (RefOwn doc))).1.1
        = DEFAULT_SETTINGS w).
Proof.
  intros Hw Hf Hn st1 other r.
  pose proof (default_settings_pristine d w Hw Hf) as Hg.
  destruct w as [g f]. cbn in Hf, Hg. subst f g.
  assert (st1 = (mkWorld DEFAULT_SETTINGS_literal FileAbsent, mkSettings RefDefault))
    as -> by reflexivity.
  assert (other = mkSettings RefDefault) as -> by reflexivity.
  subst r. rewrite loglevel_setter_in_range by exact Hn.
  unfold bind, setitem, save_settings, document.
  cbn [fst snd _settings DEFAULT_SETTINGS SETTINGS_FILE]. unfold DEFAULT_SETTINGS_literal.
  cbv zeta. cbn [fst snd _settings DEFAULT_SETTINGS SETTINGS_FILE].
  rewrite serializable_insert by (vm_compute; reflexivity).
  cbn [fst snd]. split; [reflexivity|].
  unfold loglevel, document, dict_get. cbn [fst snd _settings DEFAULT_SETTINGS].
  rewrite lookup_insert_eq. split; [reflexivity|]. split; [reflexivity|].
  intros doc v. unfold loglevel_setter.
  destruct (int_value v) as [m|]; [|reflexivity].
  unfold bind, require, ret, raise, setitem, save_settings, document.
  cbn [fst snd _settings].
  destruct ((-1 <? m) && (m <? 5)); [|reflexivity].
  destruct doc; try reflexivity.
  cbn [fst snd _settings].
  match goal with |- context [json_serializable ?x] => destruct (json_serializable x) end;
    reflexivity.
Qed.

Lemma default_document_is_shared_witness :
  let d := fun _ : pyvalue => "" in
  let w := mkWorld DEFAULT_SETTINGS_literal FileAbsent in
  loglevel ((loglevel_setter (PyInt 4) (load_settings d (w, init)).1).1.1,
            (load_settings d (w, init)).1.2) = Ok (PyInt 4).
Proof.
  intros d w.
  destruct (default_document_is_shared d w init init 4) as (_ & H & _).
  - apply reachable_start.
  - reflexivity.
  - lia.
  - exact H.
Defined.

(** X3: the setters assign before they save, and a save that raises takes
    nothing back.  Once [hosts] has been set to a non-empty list, setting a
    log level in range raises the encoder's [TypeError], and yet the log
    level read from the object is the new one; the file is left truncated. *)
Theorem failed_save_keeps_assignment w (dct : gmap string pyvalue) h hs n :
  0 <= n <= 4 ->
  let st := (hosts_setter (h :: hs) (w, mkSettings (RefOwn (PyDict dct)))).1 in
  let r := loglevel_setter (PyInt n) st in
  r.2 = Raise (TypeError "Object of type method is not JSON serializable")
  /\ loglevel r.1 = Ok (PyInt n)
  /\ SETTINGS_FILE r.1.1 = FileTruncated (document r.1).
Proof.
  intros Hn st r. subst r. rewrite loglevel_setter_in_range by exact Hn.
  subst st. unfold hosts_setter, bind, setitem, save_settings, document.
  cbn [fst snd _settings]. cbv zeta.
  rewrite not_serializable_insert by reflexivity.
  cbn [fst snd _settings DEFAULT_SETTINGS SETTINGS_FILE].
  rewrite insert_insert_ne by discriminate.
  rewrite not_serializable_insert by reflexivity.
  cbn [fst snd _settings]. unfold loglevel, document, dict_get. cbn [fst snd _settings].
  rewrite lookup_insert_ne by discriminate. rewrite lookup_insert_eq. auto.
Qed.

Lemma failed_save_keeps_assignment_witness :
  let st := (hosts_setter [default_host_preset]
               (mkWorld DEFAULT_SETTINGS_literal FileAbsent,
                mkSettings (RefOwn DEFAULT_SETTINGS_literal))).1 in
  is_ok (loglevel_setter (PyInt 2) st).2 = false
  /\ loglevel (loglevel_setter (PyInt 2) st).1 = Ok (PyInt 2).
Proof.
  intros st.
  destruct (failed_save_keeps_assignment (mkWorld DEFAULT_SETTINGS_literal FileAbsent)
              (<["hosts" := PyList [PyDict DEFAULT_HOST]]>
                 (<["loglevel" := PyInt 1]> (<["default_host" := PyInt 0]> ∅)))
              default_host_preset [] 2) as (H1 & H2 & _).
  - lia.
  - split; [|exact H2].
    etransitivity; [apply (f_equal is_ok); exact H1|reflexivity].
Defined.

Lemma default_host_setter_no_hosts v st :
  isinstance_int v = true -> hosts st = Ok [] ->
  default_host_setter v st
  = (st, Raise (ValueError "Default host must be one of the hosts")).
Proof.
  intros Hv Hh. unfold default_host_setter.
  destruct v; try discriminate Hv; cbn [int_value];
    unfold bind, require, ret, raise;
    match goal with |- context [?n <? 0] => destruct (Z.ltb_spec n 0) end;
    try reflexivity; rewrite Hh; cbn [rbind length];
    match goal with |- context [?a <=? ?n] => destruct (Z.leb_spec a n) end;
    try reflexivity; cbn in *; lia.
Qed.

(** X4: after a load that failed, no default host can be set: every integer
    is refused, since the error document has no hosts.  A log level in range
    is accepted, and the save then replaces the file that could not be
    loaded by the error document itself, so that every later load still
    reports the old error. *)
Theorem failed_load_then_setters d w s err :
  load_error d (SETTINGS_FILE w) = Some err ->
  let st := (load_settings d (w, s)).1 in
  (forall v, isinstance_int v = true ->
     default_host_setter v st
     = (st, Raise (ValueError "Default host must be one of the hosts")))
  /\ (forall n, 0 <= n <= 4 ->
      let r := loglevel_setter (PyInt n) st in
      r.2 = Ok tt
      /\ SETTINGS_FILE r.1.1
         = FileJson (PyDict (<["loglevel" := PyInt n]> {["ERROR" := PyStr err]}))
      /\ forall s', error (load_settings d (r.1.1, s')).1 = Ok (PyStr err)).
Proof.
  intros He st.
  assert (st = (w, mkSettings (RefOwn (error_document err)))) as ->.
  { subst st. unfold load_settings. cbn [fst snd].
    destruct (SETTINGS_FILE w); try discriminate; injection He as <-; reflexivity. }
  split.
  - intros v Hv. apply default_host_setter_no_hosts; [exact Hv|reflexivity].
  - intros n Hn r. subst r. rewrite loglevel_setter_in_range by exact Hn.
    destruct (setitem_save_serializable "loglevel" (PyInt n)
                (w, mkSettings (RefOwn (error_document err)))
                {["ERROR" := PyStr err]} eq_refl) as (H1 & _ & H3).
    { vm_compute. reflexivity. }
    { reflexivity. }
    split; [exact H1|]. split; [exact H3|].
    intros s'. unfold error, load_settings. cbn [fst snd]. rewrite H3.
    unfold document. cbn [fst snd _settings json_image dict_get].
    rewrite lookup_fmap, lookup_insert_ne by discriminate.
    rewrite lookup_singleton_eq. reflexivity.
Qed.

Lemma failed_load_then_setters_witness :
  let d := fun _ : pyvalue => "" in
  let w := mkWorld DEFAULT_SETTINGS_literal (FileInvalid "Expecting value") in
  let st := (load_settings d (w, init)).1 in
  is_ok (default_host_setter (PyInt 0) st).2 = false
  /\ error (load_settings d ((loglevel_setter (PyInt 1) st).1.1, init)).1
     = Ok (PyStr "Expecting value").
Proof.
  intros d w st.
  destruct (failed_load_then_setters d w init "Expecting value" eq_refl) as [H1 H2].
  split.
  - fold st in H1. rewrite (H1 (PyInt 0) eq_refl). reflexivity.
  - destruct (H2 1) as (_ & _ & H); [lia|]. apply H.
Defined.

(** X5: the setter of [loglevel] returns exactly when the value is an
    instance of [int] that denotes a number from 0 to 4, the document is a
    dict, and the document with the value in it can be encoded; when the
    value is not such an instance or is out of range, nothing has changed. *)
Theorem loglevel_setter_returns_iff (v : pyvalue) (st : St) :
  ((loglevel_setter v st).2 = Ok tt
   <-> exists n dct, int_value v = Some n /\ 0 <= n <= 4
                     /\ document st = PyDict dct
                     /\ json_serializable (PyDict (<["loglevel" := v]> dct)) = true)
  /\ (~ (exists n, int_value v = Some n /\ 0 <= n <= 4) -> (loglevel_setter v st).1 = st).
Proof.
  unfold loglevel_setter. destruct (int_value v) as [n|] eqn:Hv.
  2:{ split; [split|]; [discriminate|intros (n & dct & [=] & _)|reflexivity]. }
  unfold bind, require, ret, raise.
  destruct (Z.ltb_spec (-1) n), (Z.ltb_spec n 5); cbn [andb].
  2-4: split; [split; [discriminate|intros (m & dct & [= <-] & ? & _); lia]|reflexivity].
  split; [|intros Hc; exfalso; apply Hc; exists n; split; [reflexivity|lia]].
  unfold setitem, save_settings.
  destruct (document st) as [| | | | | |dct|] eqn:Hd;
    try (split; [discriminate|intros (m & dct' & _ & _ & [=] & _)]).
  cbv zeta.
  assert (forall s0, document (s0, mkSettings (RefOwn (PyDict (<["loglevel" := v]> dct))))
                     = PyDict (<["loglevel" := v]> dct)) as E1 by reflexivity.
  destruct st as [[g f] [[|doc]]]; unfold document in *;
    cbn [fst snd _settings DEFAULT_SETTINGS SETTINGS_FILE] in *;
    destruct (json_serializable (PyDict (<["loglevel" := v]> dct))) eqn:Hs; cbn [snd].
  all: split; [intros H'; try discriminate H'; exists n, dct; repeat split; (lia || assumption)
              |intros (m & dct' & _ & _ & [= <-] & Hs'); congruence].
Qed.

(** X6: the setter of [hosts] does not look at [default_host].  After
    [hosts] has been set to the empty list, [default_host] still reads as
    before, although there is no host left for it to index, and no integer
    is accepted as a new default any more. *)
Theorem emptied_hosts_strand_default_host (st : St) (dct : gmap string pyvalue) :
  document st = PyDict dct -> json_serializable (PyDict dct) = true ->
  let r := hosts_setter [] st in
  r.2 = Ok tt
  /\ hosts r.1 = Ok []
  /\ default_host r.1 = default_host st
  /\ (forall v, isinstance_int v = true ->
        default_host_setter v r.1
        = (r.1, Raise (ValueError "Default host must be one of the hosts"))).
Proof.
  intros Hd Hs r.
  destruct (hosts_setter_empty st dct Hd Hs) as (H1 & H2 & _).
  split; [exact H1|]. split; [exact H2|]. split.
  - destruct (setitem_save_serializable "hosts" (PyList []) st dct Hd Hs eq_refl)
      as (_ & Hdoc & _).
    subst r. unfold hosts_setter. cbn [map]. unfold default_host. rewrite Hdoc, Hd.
    cbn [dict_get]. rewrite lookup_insert_ne by discriminate. reflexivity.
  - intros v Hv. apply default_host_setter_no_hosts; assumption.
Qed.

Lemma emptied_hosts_strand_default_host_witness :
  let st := (mkWorld DEFAULT_SETTINGS_literal FileAbsent, mkSettings RefDefault) in
  hosts (hosts_setter [] st).1 = Ok []
  /\ default_host (hosts_setter [] st).1 = Ok (PyInt 0).
Proof.
  intros st.
  destruct (emptied_hosts_strand_default_host st
              (<["hosts" := PyList [PyDict DEFAULT_HOST]]>
                 (<["loglevel" := PyInt 1]> (<["default_host" := PyInt 0]> ∅))))
    as (_ & H1 & H2 & _).
  - reflexivity.
  - vm_compute. reflexivity.
  - split; [exact H1|]. rewrite H2. vm_compute. reflexivity.
Defined.

Lemma loglevel_setter_returns_iff_witness :
  let st := (mkWorld DEFAULT_SETTINGS_literal FileAbsent, mkSettings RefDefault) in
  (loglevel_setter (PyBool true) st).2 = Ok tt
  /\ (loglevel_setter (PyStr "2") st).1 = st.
Proof.
  intros st. split.
  - apply (proj1 (loglevel_setter_returns_iff (PyBool true) st)).
    exists 1. eexists. split; [reflexivity|]. split; [lia|]. split; [reflexivity|].
    vm_compute. reflexivity.
  - apply (proj2 (loglevel_setter_returns_iff (PyStr "2") st)).
    intros (n & Hn & _). discriminate Hn.
Defined.

Lemma only_host_keys (d : gmap string pyvalue) :
  forallb (fun kv : string * pyvalue => bool_decide (kv.1 ∈ ["name"; "host"; "port"]))
          (map_to_list d) = true
  <-> (forall k x, d !! k = Some x -> k ∈ ["name"; "host"; "port"]).
Proof.
  rewrite forallb_forall. split.
  - intros H k x Hk. specialize (H (k, x)). rewrite bool_decide_eq_true in H.
    apply H, list_elem_of_In, elem_of_map_to_list, Hk.
  - intros H [k x] Hin. apply bool_decide_eq_true. cbn.
    apply (H k x), elem_of_map_to_list, list_elem_of_In, Hin.
Qed.

(** X7: the [hosts] accessor decodes exactly the dict form of a host: an
    entry becomes a [Host] when, and only when, it is a dict with the three
    keys name, host and port and no other; so a document whose hosts entry
    lists hosts in dict form reads back as those hosts, in order. *)
Theorem hosts_decode_dict_form :
  (forall v h, Host_of_kwargs v = Ok h <-> v = host_dict h)
  /\ (forall w (dct : gmap string pyvalue) hs,
        hosts (w, mkSettings (RefOwn (PyDict (<["hosts" := PyList (map host_dict hs)]> dct))))
        = Ok hs).
Proof.
  assert (forall h, Host_of_kwargs (host_dict h) = Ok h) as Hdec.
  { intros [n h p]. unfold Host_of_kwargs, host_dict. cbn [name host port].
    rewrite (proj2 (only_host_keys _)).
    - cbn [negb]. rewrite lookup_insert_eq.
      rewrite lookup_insert_ne, lookup_insert_eq by discriminate.
      rewrite !lookup_insert_ne, lookup_insert_eq by discriminate. reflexivity.
    - intros k x. rewrite !lookup_insert. repeat case_decide; subst; try set_solver. }
  split.
  - intros v h. split; [|intros ->; apply Hdec].
    unfold Host_of_kwargs. destruct v as [| | | | | |d|]; try discriminate.
    destruct (forallb _ _) eqn:Hk; [|discriminate]. cbn [negb].
    destruct (d !! "name") as [n|] eqn:Hn; [|discriminate].
    destruct (d !! "host") as [h'|] eqn:Hh; [|discriminate].
    destruct (d !! "port") as [p|] eqn:Hp; [|discriminate].
    intros [= <-]. unfold host_dict. cbn [name host port]. f_equal.
    apply map_eq. intros k. rewrite !lookup_insert.
    repeat case_decide; subst; try assumption.
    rewrite lookup_empty. destruct (d !! k) as [x|] eqn:Hx; [|reflexivity].
    apply (proj1 (only_host_keys d) Hk) in Hx. set_solver.
  - intros w dct hs. unfold hosts, document, dict_get. cbn [fst snd _settings].
    rewrite lookup_insert_eq. cbn [rbind py_iter].
    induction hs as [|h hs IH]; [reflexivity|].
    cbn [map mapM]. rewrite Hdec. cbn [rbind]. rewrite IH. reflexivity.
Qed.

End SettingsMore.

(** ** The mediator, continued *)

Module AppMore.
Import AppPy Spec Vocabulary AppRequests.

(** X8: [validate_api_call] returns exactly on the calls whose type is UIC
    or CPM, whose method is true (not empty), whose args are a list, whose
    pwron and user_check are booleans and whose timeout_multiple is an
    instance of [int] that denotes at most 5; expected_response, the elements
    of args, and how small the timeout is, play no part. *)
Theorem validate_api_call_returns_iff (c : ApiCall.t) :
  validate_api_call c = Ok tt
  <-> (ApiCall.api_type c = PyStr "UIC" \/ ApiCall.api_type c = PyStr "CPM")
      /\ truthy (ApiCall.method c) = true
      /\ isinstance_list (ApiCall.args c) = true
      /\ isinstance_bool (ApiCall.pwron c) = true
      /\ isinstance_bool (ApiCall.user_check c) = true
      /\ exists n, int_value (ApiCall.timeout_multiple c) = Some n /\ n <= 5.
Proof.
  unfold validate_api_call, reject, rbind.
  destruct c as [ty m p a er uc tm]. cbn [ApiCall.api_type ApiCall.method ApiCall.pwron
    ApiCall.args ApiCall.user_check ApiCall.timeout_multiple].
  assert (eq_str ty "UIC" || eq_str ty "CPM" = true
          <-> ty = PyStr "UIC" \/ ty = PyStr "CPM") as Hty.
  { rewrite orb_true_iff. unfold eq_str.
    destruct ty; try (split; [intros [|]; discriminate|intros [|]; discriminate]).
    rewrite !bool_decide_eq_true. split; intros [H|H]; (left + right); congruence. }
  destruct (eq_str ty "UIC" || eq_str ty "CPM"); cbn [negb];
    [|split; [discriminate|intros [H _]; apply Hty in H; discriminate]].
  destruct (truthy m); cbn [negb]; [|split; [discriminate|intros (_ & [=] & _)]].
  destruct (isinstance_list a); cbn [negb]; [|split; [discriminate|intros (_ & _ & [=] & _)]].
  destruct (isinstance_bool p); cbn [negb];
    [|split; [discriminate|intros (_ & _ & _ & [=] & _)]].
  destruct (isinstance_bool uc); cbn [negb];
    [|split; [discriminate|intros (_ & _ & _ & _ & [=] & _)]].
  destruct (int_value tm) as [n|];
    [|split; [discriminate|intros (_ & _ & _ & _ & _ & n & [=] & _)]].
  destruct (Z.ltb_spec 5 n).
  - split; [discriminate|intros (_ & _ & _ & _ & _ & n' & [= <-] & ?); lia].
  - split; [intros _|reflexivity].
    repeat split; try reflexivity; [apply Hty; reflexivity|exists n; split; [reflexivity|lia]].
Qed.

Ltac simp2 := cbn -[Nat.ltb Nat.sub drop Nat.min].

Lemma event_receiver_showing a h rows l cs e :
  event_receiver e (mkSys (showing a h rows l) cs)
  = (mkSys (showing a h
              (if (1000 <? length l + 1)%nat then drop 1 (rows ++ [e]) else rows ++ [e])
              (if (1000 <? length l + 1)%nat then drop 1 (l ++ [e]) else l ++ [e]))
           (cs ++ [CallNewEvent e (1000 <? length l + 1)%nat]), Ok tt).
Proof.
  unfold event_receiver, bind, getattr, new_event, set_events, set_gui, extern, ret; simp2.
  rewrite length_app; cbn [length].
  destruct (1000 <? length l + 1)%nat; simp2.
  - destruct l, rows; reflexivity.
  - reflexivity.
Qed.

(** X9: a delivery from any history, in a window showing any rows: every
    call returns; the history and the list box both take the new events at
    their end and lose the same number of entries at their front, one per
    event from the moment the history has reached 1000; so rows and history
    that agree keep agreeing, and a history that was longer than 1000 to
    begin with keeps its length. *)
Theorem history_and_rows_evict_together a h cs (evs : list ApiResponse.t) :
  forall rows l,
  let k := evicted (length l) (length evs) in
  deliver evs (mkSys (showing a h rows l) cs)
  = (mkSys (showing a h (drop k (rows ++ evs)) (drop k (l ++ evs)))
           (cs ++ flagged (length l) evs), Ok tt)
  /\ length (drop k (l ++ evs))
     = (length l `max` (1000 `min` (length l + length evs)))%nat.
Proof.
  intros rows l k. split.
  2:{ subst k. unfold evicted. rewrite length_drop, length_app. lia. }
  subst k. revert rows l cs.
  induction evs as [|e evs IH]; intros rows l cs.
  - unfold evicted. simp2. unfold ret, flagged. simp2. rewrite !app_nil_r.
    replace (0 `min` (length l + 0 - 1000))%nat with 0%nat by lia. reflexivity.
  - cbn [deliver]. unfold bind at 1. rewrite event_receiver_showing.
    rewrite IH. f_equal. f_equal.
    + unfold evicted. cbn [length].
      destruct (Nat.ltb_spec 1000 (length l + 1)).
      * rewrite !length_drop, !length_app. cbn [length].
        rewrite <- !(drop_app_le _ evs) by (rewrite length_app; cbn; lia).
        rewrite !drop_drop, <- !app_assoc. cbn [app]. f_equal; f_equal; lia.
      * rewrite !length_app. cbn [length]. rewrite <- !app_assoc. cbn [app].
        f_equal; f_equal; lia.
    + rewrite <- app_assoc. f_equal.
      unfold flagged. rewrite imap_cons. change ([?c] ++ ?x)%list with (c :: x). f_equal.
      * rewrite Nat.add_0_r. reflexivity.
      * apply imap_ext. intros i x _. unfold compose. f_equal.
        destruct (Nat.ltb_spec 1000 (length l + 1)).
        -- rewrite length_drop, length_app. cbn [length].
           destruct (Nat.ltb_spec 1000 (length l + 1 - 1 + i + 1)),
                    (Nat.ltb_spec 1000 (length l + S i + 1)); try reflexivity; lia.
        -- rewrite length_app. cbn [length]. f_equal. lia.
Qed.

(** X10: everything [async_connect] does.  The calls it makes are those of
    the sequence up to the first that raises, followed by one disconnect when
    a step raised and [self.speaker] then holds a handle: the new one, or,
    when it was the construction that raised, the one of the session that was
    still open, which is closed in its place.  No step raising, the new
    handle replaces whatever was there, and no disconnect is sent to a
    session it replaces.  Nothing but [speaker] changes in the mediator. *)
Theorem async_connect_effects (lib : DeviceLib) ip port (s : Sys) :
  let a := app s in
  let r := async_connect lib ip port s in
  calls r.1 = (calls s ++ connect_calls lib ip port ++ teardown_calls lib ip port a)%list
  /\ app r.1 = mkApp (settings a) (gui a) (aio_loop a) (handle_after lib ip port a) (events a)
  /\ r.2 = match first_failure lib with
           | None => Ok tt
           | Some e => match on_Speaker lib, speaker a with
                       | Some _, None => Raise (no_attribute "speaker")
                       | _, _ => Raise e
                       end
           end.
Proof.
  destruct s as [[st g q sp ev] cs], lib as [o1 o2 o3 o4 o5 o6].
  unfold connect_calls, teardown_calls, handle_after, first_failure.
  cbn [app calls on_Speaker on_register_state on_register_event on_connect on_update
       speaker settings gui aio_loop events].
  destruct o1 as [e1|]; [destruct sp as [[old|]|]|];
    repeat match goal with o : outcome |- _ => destruct o end;
    unfold async_connect, client_disconnect, speaker_truthy, suppress, try_except, bind,
      getattr, set_speaker, extern, ret, raise; cbn;
    rewrite <- ?app_assoc; cbn; auto.
Qed.

(** X11: [send_api] hands the call on as it was given, without looking at
    it: after the task has run, the request that reached the library is the
    call built from the seven arguments, whatever they are (also when
    [validate_api_call] would raise on it), provided a session handle is
    there; without one the task ends on the [AttributeError] and nothing is
    requested.  In both cases, and whatever the library answers, [send_api]
    and the loop return and the mediator is unchanged. *)
Theorem send_api_dispatches_unvalidated (o : outcome)
  (ty m p ar er uc tm : pyvalue) (s : Sent) (q : list task) :
  aio_loop (app (sys s)) = Some q -> waiting s = [] ->
  let r := (send_api o ty m p ar er uc tm ;;; send_turn)%py s in
  r.2 = Ok tt
  /\ sys r.1 = sys s
  /\ waiting r.1 = []
  /\ requests r.1
     = (requests s ++ match speaker (app (sys s)) with
                      | Some (Some sp) => [(sp, ApiCall.mk ty m p ar er uc tm)]
                      | _ => []
                      end)%list.
Proof.
  destruct s as [[[st g lo sp ev] cs] w rq]. cbn [sys app aio_loop waiting requests speaker].
  intros -> ->.
  unfold send_api, send_turn, bind, on_sys, getattr. cbn.
  unfold async_send_api, suppress, try_except, bind, on_sys, getattr, ret, raise. cbn.
  destruct sp as [[h|]|]; cbn; [destruct o|..]; cbn; rewrite ?app_nil_r; auto.
Qed.

Lemma send_api_dispatches_unvalidated_witness :
  let a := mkApp SettingsPy.init None (Some []) (Some (Some (mkSpeaker "192.168.1.100" 55001)))
             None in
  let s := mkSent (mkSys a []) [] [] in
  let r := (send_api None (PyStr "XYZ") (PyStr "") PyNone PyNone PyNone PyNone (PyInt 9)
            ;;; send_turn)%py s in
  length (requests r.1) = 1%nat
  /\ is_ok (validate_api_call
              (ApiCall.mk (PyStr "XYZ") (PyStr "") PyNone PyNone PyNone PyNone (PyInt 9)))
     = false.
Proof.
  intros a s r.
  destruct (send_api_dispatches_unvalidated None (PyStr "XYZ") (PyStr "") PyNone PyNone
              PyNone PyNone (PyInt 9) s [] eq_refl eq_refl) as (_ & _ & _ & H).
  split; [|reflexivity]. fold r in H. rewrite H. reflexivity.
Defined.

Section Formatting.
Variable pformat : pyvalue -> string.
Variable py_str : pyvalue -> string.
Variable xml_pretty : string -> result string.

(** X12: the two renderers of an event differ in what they need of it.
    [get_pretty_event_attribute] formats the raw payload as XML before it
    looks at the attribute asked for, so that on an event whose payload is
    not well-formed XML it raises for every attribute, [method] included;
    with a well-formed payload an attribute that the event does not have
    gives the empty string, and [method] gives the method.
    [get_pretty_event] never parses the payload and returns for every stored
    event. *)
Theorem pretty_attribute_parses_payload_first (s : Sys) l idx event :
  events (app s) = Some l -> list_getitem l idx = Ok event ->
  (forall e attribute,
     xml_pretty (ApiResponse.raw_response event) = Raise e ->
     get_pretty_event_attribute pformat py_str xml_pretty idx attribute s = (s, Raise e))
  /\ (forall raw,
      xml_pretty (ApiResponse.raw_response event) = Ok raw ->
      get_pretty_event_attribute pformat py_str xml_pretty idx "method" s
      = (s, Ok (ApiResponse.method event))
      /\ get_pretty_event_attribute pformat py_str xml_pretty idx "raw_response" s
         = (s, Ok raw)
      /\ forall attribute,
           attribute ∉ ["raw_response"; "api_type"; "method"; "user"; "version";
                        "speaker_ip"; "success"; "data"; "err_msg"; "err_repr"] ->
           get_pretty_event_attribute pformat py_str xml_pretty idx attribute s
           = (s, Ok ""))
  /\ is_ok (get_pretty_event pformat py_str idx s).2 = true.
Proof.
  intros Hl Hi.
  unfold get_pretty_event_attribute, get_pretty_event, bind, getattr, lift, ret.
  rewrite Hl, Hi. split; [|split].
  - intros e attribute ->. reflexivity.
  - intros raw ->. split; [reflexivity|]. split; [reflexivity|].
    intros attribute Hn. unfold event_as_dict.
    rewrite !lookup_insert_ne, lookup_empty by (intros <-; set_solver).
    reflexivity.
  - reflexivity.
Qed.

End Formatting.

Lemma pretty_attribute_parses_payload_first_witness :
  let ev := ApiResponse.mk "<UIC" "UIC" "VolumeLevel" "" "1.0" "192.168.1.100"
              (PyBool true) PyNone "" "" in
  let s := mkSys (mkApp SettingsPy.init None None None (Some [ev])) [] in
  let broken := fun _ : string => Raise (LibError "ParseError" "unclosed token") in
  (get_pretty_event_attribute (fun _ => "") (fun _ => "") broken (-1) "method" s).2
  = Raise (LibError "ParseError" "unclosed token").
Proof.
  intros ev s broken.
  destruct (pretty_attribute_parses_payload_first (fun _ => "") (fun _ => "") broken
              s [ev] (-1) ev eq_refl eq_refl) as (H & _).
  rewrite (H _ "method" eq_refl). reflexivity.
Defined.

End AppMore.

(** ** The GUI, continued *)

Module GuiMore.
Import AppPy GuiPy Spec Vocabulary GuiPanels ValidationFacts.

Section Builtins.
Variable py_int : string -> option Z.
Variable py_strip : string -> string.
Variable py_split : string -> list string.

Lemma mapM_int_ok l :
  Forall (fun s => is_Some (py_int s)) l ->
  exists ns, mapM (int_ py_int) l = Ok ns.
Proof.
  induction 1 as [|s l [n Hn] _ [ns IH]]; [exists []; reflexivity|].
  exists (n :: ns). cbn. unfold int_ at 1. rewrite Hn. cbn. rewrite IH. reflexivity.
Qed.

Lemma mapM_int_raise l e :
  mapM (int_ py_int) l = Raise e -> ~ Forall (fun s => is_Some (py_int s)) l.
Proof.
  intros H HF. destruct (mapM_int_ok l HF) as [ns E]. congruence.
Qed.

Lemma forallb_int_map l : forallb isinstance_int (map PyInt l) = true.
Proof. induction l; [reflexivity|assumption]. Qed.

(** X13: what the add-argument dialog accepts.  The entry passes the
    validation exactly when the stripped name is not empty and the selected
    type is str or cdata (any text, the empty one included), or dec with a
    text that [int] parses, or dec_arr with every comma-separated field
    parsing; then Add stores the triple as [result] and closes the dialog,
    and otherwise it leaves [result] alone and the dialog open. *)
Theorem dialog_accepts_iff (d : ArgumentsDialog.t) :
  (validate_api_call_arguments (entered_args py_int py_strip py_split d) = Ok tt
   <-> entry_accepted py_int py_strip py_split d)
  /\ (entry_accepted py_int py_strip py_split d ->
      ArgumentsDialog.result (add_argument py_int py_strip py_split d)
      = entered_args py_int py_strip py_split d
      /\ ArgumentsDialog.closed (add_argument py_int py_strip py_split d) = true)
  /\ (~ entry_accepted py_int py_strip py_split d ->
      ArgumentsDialog.result (add_argument py_int py_strip py_split d)
      = ArgumentsDialog.result d
      /\ ArgumentsDialog.closed (add_argument py_int py_strip py_split d)
         = ArgumentsDialog.closed d).
Proof.
  assert (validate_api_call_arguments (entered_args py_int py_strip py_split d) = Ok tt
          <-> entry_accepted py_int py_strip py_split d) as Hiff.
  { unfold entered_args, entered_value, entry_accepted.
    destruct d as [nm vl ty res cl errs].
    cbn [ArgumentsDialog.ent_name ArgumentsDialog.ent_value ArgumentsDialog.cbx_type].
    unfold validate_api_call_arguments, reject, rbind.
    cbn [isinstance_str negb truthy eq_str].
    destruct (bool_decide_reflect (py_strip nm = "")) as [Hn|Hn]; cbn [negb].
    { split; [discriminate|intros [H _]; contradiction]. }
    destruct (bool_decide_reflect (ty = "str")) as [->|Hstr].
    { cbn. split; [intros _; split; [assumption|auto]|reflexivity]. }
    destruct (bool_decide_reflect (ty = "dec")) as [->|Hdec].
    { cbn. unfold int_. destruct (py_int (py_strip vl)) as [n|] eqn:Hp; cbn.
      - split; [intros _; split; [assumption|]|reflexivity].
        right; right; left. split; [reflexivity|eauto].
      - split; [discriminate|].
        intros [_ [H|[H|[[_ [x Hx]]|[H _]]]]]; discriminate. }
    destruct (bool_decide_reflect (ty = "cdata")) as [->|Hcdata].
    { cbn. split; [intros _; split; [assumption|auto]|reflexivity]. }
    destruct (bool_decide_reflect (ty = "dec_arr")) as [->|Harr].
    { cbn. destruct (mapM (int_ py_int) (py_split vl)) as [ns|e] eqn:Hm; cbn.
      - rewrite forallb_int_map. cbn.
        split; [intros _; split; [assumption|]|reflexivity].
        right; right; right. split; [reflexivity|].
        clear -Hm. revert ns Hm. induction (py_split vl) as [|s l IH]; intros ns Hm;
          [constructor|].
        cbn in Hm. unfold int_ at 1 in Hm. destruct (py_int s) eqn:Hs; [|discriminate].
        cbn in Hm. destruct (mapM (int_ py_int) l) eqn:Hl; [|discriminate].
        constructor; [eauto|]. eapply IH. reflexivity.
      - split; [discriminate|].
        intros [_ [H|[H|[[H _]|[_ H]]]]]; try discriminate.
        exfalso. exact (mapM_int_raise _ _ Hm H). }
    cbn [orb negb]. split; [discriminate|].
    intros [_ [H|[H|[[H _]|[H _]]]]]; congruence. }
  split; [exact Hiff|]. unfold add_argument.
  split; intros H.
  - apply Hiff in H. rewrite H. auto.
  - destruct (validate_api_call_arguments _) as [[]|e] eqn:E; [|auto].
    exfalso. apply H, Hiff. reflexivity.
Qed.

Lemma no_add_keeps_result session : forall d,
  forallb (fun ev => negb (is_add ev)) session = true ->
  ArgumentsDialog.result (fold_left (dialog_step py_int py_strip py_split) session d)
  = ArgumentsDialog.result d.
Proof.
  induction session as [|ev session IH]; intros d Hs; [reflexivity|].
  cbn in Hs. apply andb_true_iff in Hs as [Hev Hs]. cbn [fold_left].
  rewrite IH by exact Hs. unfold dialog_step.
  destruct (ArgumentsDialog.closed d); [reflexivity|].
  destruct ev; try reflexivity. discriminate Hev.
Qed.

(** X14: a dialog that ends without an accepted Add still adds an argument.
    When the user never clicks Add (cancels, or closes the window), the send
    window appends the dialog's initial result, the triple of three empty
    strings, to its arguments: a triple that the validation of arguments
    refuses. *)
Theorem cancelled_dialog_adds_empty_argument session (arguments : list pyvalue) :
  forallb (fun ev => negb (is_add ev)) session = true ->
  SendApiWindows_add_argument py_int py_strip py_split session arguments
  = (arguments ++ [PyTuple [PyStr ""; PyStr ""; PyStr ""]])%list
  /\ validate_api_call_arguments (PyTuple [PyStr ""; PyStr ""; PyStr ""])
     = Raise (ValueError "Argument name cannot be empty.").
Proof.
  intros Hs. split; [|reflexivity].
  unfold SendApiWindows_add_argument, run_dialog, close.
  cbn [ArgumentsDialog.result]. rewrite no_add_keeps_result by exact Hs. reflexivity.
Qed.

Ltac run_gui :=
  unfold dispatch, Header_connect, Header_disconnect, connect, disconnect, create_task,
    sleep0, run_task, async_connect, async_disconnect, client_disconnect, speaker_truthy,
    suppress, try_except, bind, getattr, set_gui, set_aio_loop, set_speaker, extern,
    lift, ret, raise, int_ in *;
  cbn in *.

(** X17: what a click on Connect with a parsable port leads to.  The header
    goes to connected mode and stays there whether the connect sequence
    succeeds or not: a failure ends in the task, the header is not told, and
    the mediator then holds no handle while Disconnect is enabled and Connect
    is not.  The calls made and the handle left are those of the connect
    sequence. *)
Theorem connect_click_outcome lib (s : Sys) h rows p :
  header_invariant s -> gui (app s) = Some (mkWindow h rows) -> btn_connect h = true ->
  py_int (ent_port h) = Some p ->
  let s' := (show py_int [ClickConnect lib] s).1 in
  gui (app s')
  = Some (mkWindow (mkHeader (ent_ip h) (ent_port h) false false true true) rows)
  /\ speaker (app s') = handle_after lib (ent_ip h) p (app s)
  /\ calls s' = (calls s ++ connect_calls lib (ent_ip h) p
                         ++ teardown_calls lib (ent_ip h) p (app s))%list.
Proof.
  intros (h' & rows' & Hg & Hq & _ & Hn) Hg' Hc Hp.
  rewrite Hg' in Hg. injection Hg as <- <-.
  destruct s as [[st g q sp ev0] cs]. cbn in Hg', Hq, Hn. subst g q.
  destruct h as [ip port es bc bd bs]. cbn in Hc, Hp. subst bc.
  destruct lib as [o1 o2 o3 o4 o5 o6].
  unfold handle_after, connect_calls, teardown_calls, first_failure.
  cbn [show app calls speaker ent_ip ent_port on_Speaker on_register_state
       on_register_event on_connect on_update].
  destruct o1, o2, o3, o4, o5, o6, sp as [[old|]|];
    run_gui; rewrite Hp; cbn; rewrite <- ?app_assoc; cbn; auto.
Qed.

(** X18: a click on Connect with a port that [int] does not parse starts no
    connect sequence: no call reaches the device library, the header is back
    in idle mode with its texts as they were, and the disconnect that the
    handler runs instead has assigned [None] to [speaker]. *)
Theorem connect_click_bad_port lib (s : Sys) h rows :
  header_invariant s -> gui (app s) = Some (mkWindow h rows) -> btn_connect h = true ->
  py_int (ent_port h) = None ->
  let s' := (show py_int [ClickConnect lib] s).1 in
  gui (app s')
  = Some (mkWindow (mkHeader (ent_ip h) (ent_port h) true true false false) rows)
  /\ speaker (app s') = Some None
  /\ calls s' = calls s.
Proof.
  intros (h' & rows' & Hg & Hq & _ & Hn) Hg' Hc Hp.
  rewrite Hg' in Hg. injection Hg as <- <-.
  destruct s as [[st g q sp ev0] cs]. cbn in Hg', Hq, Hn. subst g q.
  destruct h as [ip port es bc bd bs]. cbn in Hc, Hp. subst bc.
  destruct (Hn eq_refl) as [Hs|Hs]; cbn in Hs; subst sp;
    cbn [show]; run_gui; rewrite Hp; cbn; auto.
Qed.

(** X19: the call that the send window builds, against the validation that
    nothing on the way applies to it.  When [int] parses the text of the
    timeout box, the call is one [validate_api_call] accepts exactly when a
    type is selected, the stripped method is not empty and the timeout is at
    most 5: the flags and the argument list always pass.  When [int] does not
    parse the text, no call is built: the handler ends on the [ValueError]. *)
Theorem form_call_validity (w : SendApiWindows.t) :
  match py_int (SendApiWindows.scl_timeout w) with
  | None => is_ok (form_call py_int py_strip w) = false
  | Some n =>
      exists c, form_call py_int py_strip w = Ok c
      /\ ApiCall.timeout_multiple c = PyInt n
      /\ (validate_api_call c = Ok tt
          <-> (SendApiWindows.cbx_type w = "UIC" \/ SendApiWindows.cbx_type w = "CPM")
              /\ py_strip (SendApiWindows.ent_method w) <> ""
              /\ n <= 5)
  end.
Proof.
  unfold form_call, int_. destruct (py_int (SendApiWindows.scl_timeout w)) as [n|];
    [|reflexivity].
  cbn [rbind]. eexists. split; [reflexivity|]. split; [reflexivity|].
  unfold validate_api_call, reject, rbind.
  cbn [ApiCall.api_type ApiCall.method ApiCall.args ApiCall.pwron ApiCall.user_check
       ApiCall.timeout_multiple eq_str truthy isinstance_list isinstance_bool int_value negb].
  destruct (bool_decide_reflect (SendApiWindows.cbx_type w = "UIC")) as [Hu|Hu];
    destruct (bool_decide_reflect (SendApiWindows.cbx_type w = "CPM")) as [Hc|Hc];
    cbn [orb negb];
    try (destruct (bool_decide_reflect (py_strip (SendApiWindows.ent_method w) = ""))
           as [Hm|Hm]; cbn [negb];
         [split; [discriminate|intros (_ & H & _); contradiction]|];
         destruct (Z.ltb_spec 5 n);
         [split; [discriminate|intros (_ & _ & H'); lia]
         |split; [intros _; repeat split; auto|reflexivity]]).
  split; [discriminate|intros ([H|H] & _); contradiction].
Qed.

End Builtins.

Section Str.
Variable py_str : pyvalue -> string.

Lemma trv_item_dom key r (rows : gmap string Row) :
  dom (trv_item key r rows).1 = dom rows.
Proof.
  unfold trv_item. destruct (rows !! key) eqn:E; [|reflexivity].
  cbn. rewrite dom_insert_L. apply elem_of_dom_2 in E. set_solver.
Qed.

Lemma new_state_dom time_now state : forall rows : gmap string Row,
  dom (new_state py_str time_now state rows).1 = dom rows.
Proof.
  induction state as [|[k v] state IH]; intros rows; [reflexivity|].
  cbn [new_state]. unfold bind.
  pose proof (trv_item_dom k (state_row py_str time_now k v) rows) as Hd.
  destruct (trv_item k (state_row py_str time_now k v) rows) as [rows1 [[]|e]];
    cbn in *; [rewrite IH|]; exact Hd.
Qed.

Lemma new_state_missing_row time_now pre k v post : forall rows : gmap string Row,
  (forall k', k' ∈ pre.*1 -> is_Some (rows !! k')) -> rows !! k = None ->
  new_state py_str time_now (pre ++ (k, v) :: post) rows
  = ((new_state py_str time_now pre rows).1,
     Raise (LibError "TclError" ("Item " ++ k ++ " not found"))).
Proof.
  induction pre as [|[k0 v0] pre IH]; intros rows Hall Hk.
  - rewrite app_nil_l. cbn [new_state]. unfold bind, trv_item. rewrite Hk. reflexivity.
  - destruct (Hall k0) as [r0 Hk0]; [cbn; left|].
    rewrite <- app_comm_cons. cbn [new_state]. unfold bind, trv_item. rewrite Hk0.
    apply IH.
    + intros k' Hk'. rewrite lookup_insert. case_decide; [eauto|].
      apply Hall. cbn. right. exact Hk'.
    + rewrite lookup_insert. case_decide as Hc; [|exact Hk]. subst. congruence.
Qed.

(** X20: [new_state] rewrites rows and never adds or removes one.  Whatever
    the state holds, the items of the tree are the same afterwards.  When
    every key of the state has a row, the call returns, the rows of other
    keys are untouched and each key of the state shows its value (keys being
    distinct, as in a dict).  At the first key without a row Tk raises, with
    the rows of the keys before it already rewritten and the rest of the
    state dropped. *)
Theorem new_state_rewrites_rows time_now (state : list (string * pyvalue))
  (rows : gmap string Row) :
  dom (new_state py_str time_now state rows).1 = dom rows
  /\ ((forall k, k ∈ state.*1 -> is_Some (rows !! k)) ->
      (new_state py_str time_now state rows).2 = Ok tt
      /\ (forall k, k ∉ state.*1 ->
            (new_state py_str time_now state rows).1 !! k = rows !! k)
      /\ (NoDup state.*1 -> forall k v, (k, v) ∈ state ->
            (new_state py_str time_now state rows).1 !! k
            = Some (state_row py_str time_now k v)))
  /\ (forall pre k v post,
        state = (pre ++ (k, v) :: post)%list ->
        (forall k', k' ∈ pre.*1 -> is_Some (rows !! k')) -> rows !! k = None ->
        new_state py_str time_now state rows
        = ((new_state py_str time_now pre rows).1,
           Raise (LibError "TclError" ("Item " ++ k ++ " not found")))).
Proof.
  split; [apply new_state_dom|]. split.
  - revert rows. induction state as [|[k v] state IH]; intros rows Hall.
    { split; [reflexivity|]. split; [reflexivity|]. intros _ k v H. inversion H. }
    destruct (Hall k) as [r0 Hk]; [cbn; left|].
    cbn [new_state]. unfold bind, trv_item. rewrite Hk.
    destruct (IH (<[k := state_row py_str time_now k v]> rows)) as (H1 & H2 & H3).
    { intros k' Hk'. rewrite lookup_insert. case_decide; [eauto|].
      apply Hall. cbn. right. exact Hk'. }
    split; [exact H1|]. split.
    + intros k' Hk'. cbn in Hk'. rewrite not_elem_of_cons in Hk'. destruct Hk' as [Hne Hk'].
      rewrite H2 by exact Hk'. rewrite lookup_insert_ne by congruence. reflexivity.
    + intros Hnd k' v' Hin. cbn in Hnd. apply NoDup_cons in Hnd as [Hnotin Hnd].
      apply elem_of_cons in Hin as [[= -> ->]|Hin].
      * rewrite H2 by exact Hnotin. apply lookup_insert_eq.
      * apply H3; assumption.
  - intros pre k v post ->. apply new_state_missing_row.
Qed.

End Str.

Lemma dialog_accepts_iff_witness :
  let d := ArgumentsDialog.mk " vol " "" "str" PyNone false [] in
  ArgumentsDialog.result (add_argument ascii_int ascii_strip ascii_split d)
  = PyTuple [PyStr "vol"; PyStr ""; PyStr "str"].
Proof.
  intros d.
  destruct (proj1 (proj2 (dialog_accepts_iff ascii_int ascii_strip ascii_split d)))
    as [H _].
  - split; [vm_compute; discriminate|left; reflexivity].
  - rewrite H. vm_compute. reflexivity.
Defined.

Lemma cancelled_dialog_adds_empty_argument_witness :
  SendApiWindows_add_argument ascii_int ascii_strip ascii_split
    [TypeName "vol"; TypeValue "10"; ClickCancel] []
  = [PyTuple [PyStr ""; PyStr ""; PyStr ""]].
Proof.
  apply (cancelled_dialog_adds_empty_argument ascii_int ascii_strip ascii_split
           [TypeName "vol"; TypeValue "10"; ClickCancel] []).
  reflexivity.
Defined.

Lemma connect_click_outcome_witness :
  let refused := mkDeviceLib None None None (Some (LibError "OSError" "refused")) None None in
  let s := mkSys (idle (mkApp SettingsPy.init None None None None)
                    "192.168.1.100" "55001" []) [] in
  let s' := (show ascii_int [ClickConnect refused] s).1 in
  option_map (fun g => btn_connect (header g)) (gui (app s')) = Some false
  /\ speaker (app s') = Some None.
Proof.
  intros refused s s'.
  destruct (connect_click_outcome ascii_int refused s
              (mkHeader "192.168.1.100" "55001" true true false false) [] 55001)
    as (H1 & H2 & _).
  - exists (mkHeader "192.168.1.100" "55001" true true false false), [].
    repeat split. intros _. left. reflexivity.
  - reflexivity.
  - reflexivity.
  - reflexivity.
  - fold s' in H1, H2. rewrite H1, H2. split; reflexivity.
Defined.

Lemma connect_click_bad_port_witness :
  let s := mkSys (idle (mkApp SettingsPy.init None None None None)
                    "192.168.1.100" "55oo1" []) [] in
  calls (show ascii_int [ClickConnect quiet] s).1 = [].
Proof.
  intros s.
  destruct (connect_click_bad_port ascii_int quiet s
              (mkHeader "192.168.1.100" "55oo1" true true false false) [])
    as (_ & _ & H).
  - exists (mkHeader "192.168.1.100" "55oo1" true true false false), [].
    repeat split. intros _. left. reflexivity.
  - reflexivity.
  - reflexivity.
  - reflexivity.
  - exact H.
Defined.

Lemma new_state_rewrites_rows_witness :
  let rows : gmap string Row := {["volume" := mkRow "10:00:00" "volume" "int" "5"]} in
  let r := new_state (fun _ => "7") "10:00:01" [("volume", PyInt 7); ("bass", PyInt 1)] rows in
  r.2 = Raise (LibError "TclError" "Item bass not found")
  /\ r.1 !! "volume" = Some (mkRow "10:00:01" "volume" "int" "7").
Proof.
  intros rows r.
  destruct (new_state_rewrites_rows (fun _ => "7") "10:00:01"
              [("volume", PyInt 7); ("bass", PyInt 1)] rows) as (_ & _ & H).
  unfold r. rewrite (H [("volume", PyInt 7)] "bass" (PyInt 1) [] eq_refl).
  - split; reflexivity.
  - intros k Hk. cbn in Hk. apply elem_of_cons in Hk as [->|Hk]; [|inversion Hk].
    eexists. reflexivity.
  - reflexivity.
Defined.

End GuiMore.

(** ** The event history on the mediator that [__init__] builds *)

Module HistoryFacts.
Import AppPy GuiPy Spec Vocabulary.

Create HintDb keeps.

Lemma keeps_ret A (a : A) : keeps_events (ret a).
Proof. intros s. reflexivity. Qed.

Lemma keeps_raise A e : keeps_events (@raise Sys A e).
Proof. intros s. reflexivity. Qed.

Lemma keeps_lift A (r : result A) : keeps_events (lift r).
Proof. intros s. reflexivity. Qed.

Lemma keeps_bind A B (m : M Sys A) (k : A -> M Sys B) :
  keeps_events m -> (forall a, keeps_events (k a)) -> keeps_events (bind m k).
Proof.
  intros Hm Hk s. unfold bind. specialize (Hm s).
  destruct (m s) as [s' [a|e]]; cbn [fst] in *; [rewrite Hk|]; exact Hm.
Qed.

Lemma keeps_try_except A (m : M Sys A) (h : exn -> M Sys A) :
  keeps_events m -> (forall e, keeps_events (h e)) -> keeps_events (try_except m h).
Proof.
  intros Hm Hh s. unfold try_except. specialize (Hm s).
  destruct (m s) as [s' [a|e]]; cbn [fst] in *; [|rewrite Hh]; exact Hm.
Qed.

Lemma keeps_suppress (m : M Sys unit) : keeps_events m -> keeps_events (suppress m).
Proof. intros Hm. apply keeps_try_except; [exact Hm|]. intros _ s. reflexivity. Qed.

Lemma keeps_getattr A (field : App -> option A) a : keeps_events (getattr field a).
Proof. intros s. unfold getattr. destruct (field (app s)); reflexivity. Qed.

Lemma keeps_set_gui g : keeps_events (set_gui g).
Proof. intros s. reflexivity. Qed.

Lemma keeps_set_aio_loop q : keeps_events (set_aio_loop q).
Proof. intros s. reflexivity. Qed.

Lemma keeps_set_speaker sp : keeps_events (set_speaker sp).
Proof. intros s. reflexivity. Qed.

Lemma keeps_extern c o : keeps_events (extern c o).
Proof. intros s. reflexivity. Qed.

Lemma keeps_if A (b : bool) (m1 m2 : M Sys A) :
  keeps_events m1 -> keeps_events m2 -> keeps_events (if b then m1 else m2).
Proof. destruct b; auto. Qed.

#[export] Hint Resolve keeps_ret keeps_raise keeps_lift keeps_bind keeps_try_except
  keeps_suppress keeps_getattr keeps_set_gui keeps_set_aio_loop keeps_set_speaker
  keeps_extern keeps_if : keeps.

Lemma keeps_client_disconnect lib : keeps_events (client_disconnect lib).
Proof.
  unfold client_disconnect. apply keeps_bind; [auto with keeps|].
  intros [sp|]; auto with keeps.
Qed.

Lemma keeps_speaker_truthy : keeps_events speaker_truthy.
Proof. unfold speaker_truthy. auto with keeps. Qed.

#[export] Hint Resolve keeps_client_disconnect keeps_speaker_truthy : keeps.

Lemma keeps_async_disconnect lib : keeps_events (async_disconnect lib).
Proof. unfold async_disconnect. auto with keeps. Qed.

Lemma keeps_async_connect lib ip port : keeps_events (async_connect lib ip port).
Proof. unfold async_connect. auto 12 with keeps. Qed.

Lemma keeps_create_task t : keeps_events (create_task t).
Proof. unfold create_task. auto with keeps. Qed.

#[export] Hint Resolve keeps_async_disconnect keeps_async_connect keeps_create_task : keeps.

Lemma keeps_run_task t : keeps_events (run_task t).
Proof. destruct t; cbn [run_task]; auto with keeps. Qed.

Lemma keeps_run_tasks q : keeps_events (run_tasks q).
Proof.
  induction q as [|t q IH]; cbn [run_tasks]; [auto with keeps|].
  apply keeps_bind; [apply keeps_suppress, keeps_run_task|intros _; exact IH].
Qed.

Lemma keeps_sleep0 : keeps_events sleep0.
Proof.
  unfold sleep0. apply keeps_bind; [auto with keeps|]. intros q.
  apply keeps_bind; [auto with keeps|]. intros _. apply keeps_run_tasks.
Qed.

Section Builtins.
Variable py_int : string -> option Z.

Lemma keeps_Header_disconnect lib : keeps_events (Header_disconnect lib).
Proof. unfold Header_disconnect, disconnect. auto with keeps. Qed.

Lemma keeps_Header_connect lib : keeps_events (Header_connect py_int lib).
Proof.
  unfold Header_connect, connect.
  apply keeps_bind; [auto with keeps|]. intros g.
  apply keeps_bind; [auto with keeps|]. intros _.
  apply keeps_try_except; [auto with keeps|]. intros _. apply keeps_Header_disconnect.
Qed.

Lemma keeps_dispatch ev : keeps_events (dispatch py_int ev).
Proof.
  unfold dispatch. apply keeps_bind; [auto with keeps|]. intros g.
  destruct ev; apply keeps_if;
    auto using keeps_Header_connect, keeps_Header_disconnect with keeps.
Qed.

Lemma keeps_show session : keeps_events (show py_int session).
Proof.
  induction session as [|ev session IH]; cbn [show]; [auto with keeps|].
  apply keeps_bind; [apply keeps_suppress, keeps_dispatch|]. intros _.
  apply keeps_bind; [apply keeps_sleep0|]. intros _. exact IH.
Qed.

(** Without a history the receiver raises at once and changes nothing. *)
Lemma deliver_without_history e evs s :
  events (app s) = None ->
  deliver (e :: evs) s = (s, Raise (no_attribute "events")).
Proof.
  destruct s as [[st g q sp ev] cs]. cbn [events app]. intros ->. reflexivity.
Qed.

(** C1 (the code departs from it): the bounded history is never
    created.  On the mediator as [__init__] leaves it, the first event
    delivered makes the receiver raise [AttributeError] at
    [self.events.append]: nothing is stored, the GUI is not notified, and
    the events that follow are not reached.  The same holds once the window
    is built and after every session of the user, connects included: no
    action of the header assigns [events]. *)
Theorem event_receiver_without_history d w cs ip0 port0 session e evs :
  let s0 := mkSys (AppPy.init d w) cs in
  let s := (show py_int session (mkSys (idle (AppPy.init d w) ip0 port0 []) cs)).1 in
  deliver (e :: evs) s0 = (s0, Raise (no_attribute "events"))
  /\ events (app s) = None
  /\ deliver (e :: evs) s = (s, Raise (no_attribute "events")).
Proof.
  intros s0 s.
  assert (events (app s) = None) as Hs by (unfold s; rewrite keeps_show; reflexivity).
  split; [reflexivity|]. split; [exact Hs|].
  apply deliver_without_history, Hs.
Qed.

End Builtins.

End HistoryFacts.
